(** * The general commands of the XCUITest driver (lib/commands/general.js)

    The commands are asynchronous JavaScript methods of the driver.  They are
    embedded here as programs over the driver's collaborators (the WDA proxy,
    the context and device flags, the host [date] command, the device time
    service, the logger); the JavaScript values they inspect are embedded as
    an inductive type with the language's coercions written out. *)

From Stdlib Require Import ZArith NArith Bool List String Ascii Lia.
From Stdlib Require Import DecimalString.
From Stdlib Require Import Floats.SpecFloat.
Import ListNotations.
Local Open Scope string_scope.
Local Open Scope Z_scope.

(** ** JavaScript numbers

    A Number is an IEEE 754 binary64 value: [spec_float] with 53 bits of
    precision and exponent bound 1024.  The operations are those of
    [SpecFloat], which round to nearest, ties to even. *)
Module JS.

Definition prec : Z := 53.
Definition emax : Z := 1024.

Definition number : Type := spec_float.

Definition NaN : number := S754_nan.

(** The Number nearest to an integer (an integer literal of the source). *)
Definition of_Z (z : Z) : number := binary_normalize prec emax z 0 false.

Definition mul : number -> number -> number := SFmul prec emax.
Definition div : number -> number -> number := SFdiv prec emax.
Definition sub : number -> number -> number := SFsub prec emax.

(** [a <= b] and [a >= b] on Numbers; both are false when an operand is NaN. *)
Definition le (a b : number) : bool := SFleb a b.
Definition ge (a b : number) : bool := SFleb b a.
Definition lt (a b : number) : bool := SFltb a b.

Definition is_nan (n : number) : bool :=
  match n with S754_nan => true | _ => false end.

(** [Math.abs] *)
Definition Math_abs (n : number) : number := SFabs n.

(** [Math.round]: the integral Number closest to [x], ties towards
    +Infinity; an integral, infinite or NaN argument is returned as it is,
    and a result of zero keeps the sign of [x].  For [x = (-1)^s * m * 2^e]
    with [e < 0] this is [floor ((2 * M + 2^k) / 2^(k+1))] with [k = -e]. *)
Definition Math_round (x : number) : number :=
  match x with
  | S754_finite s m e =>
      if 0 <=? e then x
      else
        let k := - e in
        let M := cond_Zopp s (Zpos m) in
        binary_normalize prec emax ((2 * M + 2 ^ k) / 2 ^ (k + 1)) 0 s
  | _ => x
  end.

(** What reading back the decimal text of a Number gives: ECMAScript's
    Number::toString writes the shortest decimal that converts back to the
    same Number, and writes both zeros as ["0"]. *)
Definition reread (n : number) : number :=
  match n with
  | S754_zero _ => S754_zero false
  | _ => n
  end.

(** *** Numeric text

    Strings are taken over ASCII.  StrWhiteSpaceChar there is tab, line
    feed, vertical tab, form feed, carriage return and space. *)
Definition is_white_space (c : ascii) : bool :=
  let n := N_of_ascii c in
  ((9 <=? n) && (n <=? 13) || (n =? 32))%N.

Fixpoint trimStart_chars (cs : list ascii) : list ascii :=
  match cs with
  | c :: rest => if is_white_space c then trimStart_chars rest else cs
  | [] => []
  end.

Definition trimEnd_chars (cs : list ascii) : list ascii :=
  rev (trimStart_chars (rev cs)).

Definition trim_chars (cs : list ascii) : list ascii :=
  trimEnd_chars (trimStart_chars cs).

(** [String.prototype.trim] *)
Definition trim (s : string) : string :=
  string_of_list_ascii (trim_chars (list_ascii_of_string s)).

(** The value of a digit in a radix up to 16, if it is one. *)
Definition digit_value (radix : N) (c : ascii) : option N :=
  let n := N_of_ascii c in
  let v :=
    if ((48 <=? n) && (n <=? 57))%N then Some (n - 48)%N
    else if ((97 <=? n) && (n <=? 102))%N then Some (n - 87)%N
    else if ((65 <=? n) && (n <=? 70))%N then Some (n - 55)%N
    else None in
  match v with
  | Some d => if (d <? radix)%N then Some d else None
  | None => None
  end.

(** Reads the longest run of digits: the number read so far, how many digits
    were read, and the rest. *)
Fixpoint scan_digits (radix : N) (acc : N) (count : nat) (cs : list ascii)
  : N * nat * list ascii :=
  match cs with
  | c :: rest =>
      match digit_value radix c with
      | Some d => scan_digits radix (acc * radix + d)%N (S count) rest
      | None => (acc, count, cs)
      end
  | [] => (acc, count, [])
  end.

(** A decimal literal that was read: infinite, or [digits * 10^exp10]. *)
Inductive decimal : Type :=
| DInfinity
| DFinite (digits : N) (exp10 : Z).

Fixpoint strip_prefix (p cs : list ascii) : option (list ascii) :=
  match p, cs with
  | [], _ => Some cs
  | a :: p', c :: cs' => if Ascii.eqb a c then strip_prefix p' cs' else None
  | _ :: _, [] => None
  end.

(** ExponentPart: [e] or [E], an optional sign, at least one digit.  When it
    is not there nothing is consumed. *)
Definition scan_exponent (cs : list ascii) : Z * list ascii :=
  match cs with
  | c :: rest =>
      if Ascii.eqb c "e" || Ascii.eqb c "E" then
        let '(sign, rest') :=
          match rest with
          | s :: r =>
              if Ascii.eqb s "-" then (true, r)
              else if Ascii.eqb s "+" then (false, r)
              else (false, rest)
          | [] => (false, rest)
          end in
        match scan_digits 10 0 0 rest' with
        | (_, O, _) => (0, cs)
        | (n, _, after) => (cond_Zopp sign (Z.of_N n), after)
        end
      else (0, cs)
  | [] => (0, cs)
  end.

(** The longest prefix that is a StrUnsignedDecimalLiteral. *)
Definition scan_unsigned_decimal (cs : list ascii)
  : option (decimal * list ascii) :=
  match strip_prefix (list_ascii_of_string "Infinity") cs with
  | Some rest => Some (DInfinity, rest)
  | None =>
      let '(int_part, int_count, r1) := scan_digits 10 0 0 cs in
      let '(mant, frac_count, r2) :=
        match r1 with
        | c :: after_dot =>
            if Ascii.eqb c "." then
              match scan_digits 10 int_part 0 after_dot with
              | (_, O, _) =>
                  (* a dot with no digit after it belongs to the literal
                     only when digits come before it *)
                  match int_count with
                  | O => (int_part, O, r1)
                  | _ => (int_part, O, after_dot)
                  end
              | res => res
              end
            else (int_part, O, r1)
        | [] => (int_part, O, r1)
        end in
      match int_count, frac_count with
      | O, O => None
      | _, _ =>
          let '(e, r3) := scan_exponent r2 in
          Some (DFinite mant (e - Z.of_nat frac_count), r3)
      end
  end.

(** The longest prefix that is a StrDecimalLiteral, with its sign. *)
Definition scan_decimal (cs : list ascii)
  : option (bool * decimal * list ascii) :=
  let '(sign, body) :=
    match cs with
    | c :: rest =>
        if Ascii.eqb c "-" then (true, rest)
        else if Ascii.eqb c "+" then (false, rest)
        else (false, cs)
    | [] => (false, cs)
    end in
  match scan_unsigned_decimal body with
  | Some (d, rest) => Some (sign, d, rest)
  | None => None
  end.

(** The Number nearest to a decimal literal. *)
Definition decimal_value (sign : bool) (d : decimal) : number :=
  match d with
  | DInfinity => S754_infinity sign
  | DFinite 0%N _ => S754_zero sign
  | DFinite (Npos m) e =>
      match e with
      | Zneg k => div (S754_finite sign m 0) (S754_finite false (10 ^ k)%positive 0)
      | _ => binary_normalize prec emax (cond_Zopp sign (Zpos m * 10 ^ e)) 0 sign
      end
  end.

(** A NonDecimalIntegerLiteral: [0x], [0o] or [0b] and digits, no sign. *)
Definition scan_non_decimal (cs : list ascii) : option number :=
  match cs with
  | z :: p :: digits =>
      if Ascii.eqb z "0" then
        let radix :=
          if Ascii.eqb p "x" || Ascii.eqb p "X" then Some 16%N
          else if Ascii.eqb p "o" || Ascii.eqb p "O" then Some 8%N
          else if Ascii.eqb p "b" || Ascii.eqb p "B" then Some 2%N
          else None in
        match radix with
        | Some r =>
            match scan_digits r 0 0 digits with
            | (_, O, _) => None
            | (n, _, []) => Some (of_Z (Z.of_N n))
            | _ => None
            end
        | None => None
        end
      else None
  | _ => None
  end.

(** StringToNumber: the whole trimmed text has to be a numeric literal; the
    empty text is [+0]. *)
Definition StringToNumber (s : string) : number :=
  match trim_chars (list_ascii_of_string s) with
  | [] => S754_zero false
  | cs =>
      match scan_non_decimal cs with
      | Some n => n
      | None =>
          match scan_decimal cs with
          | Some (sign, d, []) => decimal_value sign d
          | _ => NaN
          end
      end
  end.

(** [parseFloat] on text: leading white space is skipped and the longest
    decimal prefix is read; what follows it is ignored. *)
Definition parseFloat_text (s : string) : number :=
  match scan_decimal (trimStart_chars (list_ascii_of_string s)) with
  | Some (sign, d, _) => decimal_value sign d
  | None => NaN
  end.

End JS.

(** ** JavaScript values

    The values the commands receive and return: the primitives and plain
    data objects (as decoded from JSON), an object being its own properties
    in order.  Arrays, functions and symbols are not part of the model. *)
#[warnings="-register-all"]
Inductive value : Type :=
| VUndefined
| VNull
| VBool (b : bool)
| VNum (n : JS.number)
| VStr (s : string)
| VObj (props : list (string * value)).

Module Value.

Fixpoint lookup (key : string) (props : list (string * value)) : option value :=
  match props with
  | (k, v) :: rest => if String.eqb k key then Some v else lookup key rest
  | [] => None
  end.

(** ToBoolean *)
Definition truthy (v : value) : bool :=
  match v with
  | VUndefined | VNull => false
  | VBool b => b
  | VNum n =>
      match n with
      | S754_zero _ | S754_nan => false
      | _ => true
      end
  | VStr s => negb (String.eqb s EmptyString)
  | VObj _ => true
  end.

(** ToNumber, as [Number(v)] and the arithmetic operators apply it.  A plain
    object converts through its text ["[object Object]"], which is no
    number. *)
Definition Number (v : value) : JS.number :=
  match v with
  | VUndefined => JS.NaN
  | VNull => S754_zero false
  | VBool true => JS.of_Z 1
  | VBool false => S754_zero false
  | VNum n => n
  | VStr s => JS.StringToNumber s
  | VObj _ => JS.NaN
  end.

(** The global [isNaN]: whether the argument converts to NaN. *)
Definition isNaN (v : value) : bool := JS.is_nan (Number v).

(** The text ToString gives for a value that is not a Number ([parseFloat]
    below handles a Number before it asks for the text). *)
Definition text_of (v : value) : string :=
  match v with
  | VUndefined => "undefined"
  | VNull => "null"
  | VBool true => "true"
  | VBool false => "false"
  | VStr s => s
  | VObj _ => "[object Object]"
  | VNum _ => EmptyString
  end.

(** The global [parseFloat]: the argument is converted with ToString and the
    longest decimal prefix of that text is read.  [String(v)] is the same
    conversion, so [parseFloat(String(v))] reads the text [parseFloat(v)]
    reads.  The text of a Number reads back as that Number ([JS.reread]). *)
Definition parseFloat (v : value) : JS.number :=
  match v with
  | VNum n => JS.reread n
  | _ => JS.parseFloat_text (text_of v)
  end.

(** [a * b] and [a / b] convert both operands with ToNumber. *)
Definition times (a b : value) : JS.number := JS.mul (Number a) (Number b).
Definition over (a b : value) : JS.number := JS.div (Number a) (Number b).

(** [Math.abs(v)] converts its argument with ToNumber. *)
Definition Math_abs (v : value) : JS.number := JS.Math_abs (Number v).

(** A property read [v.key] that does not throw: [None] stands for the
    TypeError of reading a property of [undefined] or [null]; a missing
    property reads as [undefined]. *)
Definition prop (v : value) (key : string) : option value :=
  match v with
  | VUndefined | VNull => None
  | VObj props =>
      match lookup key props with
      | Some x => Some x
      | None => Some VUndefined
      end
  | _ => Some VUndefined
  end.

End Value.

(** ** lodash and the appium support library *)
Module Lodash.

(** [_.isNumber] *)
Definition isNumber (v : value) : bool :=
  match v with VNum _ => true | _ => false end.

(** [_.isNil] *)
Definition isNil (v : value) : bool :=
  match v with VUndefined | VNull => true | _ => false end.

(** [_.isNaN]: the value is the Number NaN. *)
Definition isNaN (v : value) : bool :=
  match v with VNum n => JS.is_nan n | _ => false end.

(** [_.has(v, key)]: [key] is an own property of [v]. *)
Definition has (v : value) (key : string) : bool :=
  match v with
  | VObj props =>
      match Value.lookup key props with Some _ => true | None => false end
  | _ => false
  end.

Fixpoint is_prefix (p s : string) : bool :=
  match p, s with
  | EmptyString, _ => true
  | String a p', String c s' => Ascii.eqb a c && is_prefix p' s'
  | String _ _, EmptyString => false
  end.

Fixpoint contains (s needle : string) : bool :=
  is_prefix needle s ||
  match s with
  | String _ rest => contains rest needle
  | EmptyString => false
  end.

Fixpoint has_string_value (props : list (string * value)) (target : string)
  : bool :=
  match props with
  | (_, VStr s) :: rest => String.eqb s target || has_string_value rest target
  | _ :: rest => has_string_value rest target
  | [] => false
  end.

(** [_.includes(v, target)] for a string [target]: a substring test on a
    string, a test on the property values of an object, false on the other
    primitives. *)
Definition includes (v : value) (target : string) : bool :=
  match v with
  | VStr s => contains s target
  | VObj props => has_string_value props target
  | _ => false
  end.

End Lodash.

Module Support.

(** [util.hasValue] of the appium support library (a dependency, not part
    of this repository): a Number has a value unless it is NaN, anything
    else unless it is [undefined] or [null]. *)
Definition hasValue (v : value) : bool :=
  if Lodash.isNumber v then negb (Lodash.isNaN v)
  else negb (Lodash.isNil v).

End Support.

(** ** Effects

    A command awaits its collaborators one after the other and either
    returns or throws.  [prog A] is such a computation: [Call c k] awaits
    the collaborator call [c] and goes on with [k] on its result, [Log]
    writes to the driver's logger, [Throw] rejects. *)

(** A template literal, with the interpolated values kept as values. *)
Inductive fragment : Type :=
| Text (s : string)
| Interp (v : value)
| Json (v : value).

Definition message : Type := list fragment.

Inductive error : Type :=
| InvalidArgumentError (m : message)
| NotYetImplementedError (m : message)
| TypeError
| Rejected (reason : value).

Inductive level : Type := info | debug | warn.

(** The collaborators: methods of the driver that live outside this file
    and the imported functions that do input or output.  An argument that
    the call site leaves out is [None]. *)
Inductive call : Type :=
| proxyCommand (url method : string) (body : option value)
    (isSessionCommand : option bool)
| isWebContext
| isRealDevice
| executeAtom (atom : string) (args : list value)
| exec (cmd : string) (args : list string)
| opts (name : string)
| utilities_getDeviceTime (udid : value).

Inductive prog (A : Type) : Type :=
| Ret (a : A)
| Throw (e : error)
| Log (l : level) (m : message) (k : prog A)
| Call (c : call) (k : value -> prog A).

Arguments Ret {A} a.
Arguments Throw {A} e.
Arguments Log {A} l m k.
Arguments Call {A} c k.

Fixpoint bind {A B : Type} (p : prog A) (f : A -> prog B) : prog B :=
  match p with
  | Ret a => f a
  | Throw e => Throw e
  | Log l m k => Log l m (bind k f)
  | Call c k => Call c (fun r => bind (k r) f)
  end.

(** [await] of a collaborator call *)
Definition await (c : call) : prog value := Call c Ret.

Notation "x <- p ;; q" := (bind p (fun x => q))
  (at level 61, p at next level, right associativity).
Notation "p ;;; q" := (bind p (fun _ => q))
  (at level 61, right associativity).

Definition log (l : level) (m : message) : prog unit := Log l m (Ret tt).

(** A property read, with its TypeError. *)
Definition get (v : value) (key : string) : prog value :=
  match Value.prop v key with
  | Some x => Ret x
  | None => Throw TypeError
  end.

(** What an observer sees of a run: the collaborator calls and the log
    lines, in order. *)
Inductive event : Type :=
| Called (c : call)
| Logged (l : level) (m : message).

(** The collaborators answer a call with a value or a failure, and may
    change their own state [S] doing so. *)
Definition handler (S : Type) : Type := call -> S -> (value + error) * S.

Record outcome (S A : Type) : Type := Outcome {
  trace : list event;
  result : A + error;
  final : S
}.

Arguments Outcome {S A} trace result final.
Arguments trace {S A} o.
Arguments result {S A} o.
Arguments final {S A} o.

Definition after {S A : Type} (e : event) (o : outcome S A) : outcome S A :=
  Outcome (e :: trace o) (result o) (final o).

Fixpoint run {S A : Type} (h : handler S) (p : prog A) (s : S) : outcome S A :=
  match p with
  | Ret a => Outcome [] (inl a) s
  | Throw e => Outcome [] (inr e) s
  | Log l m k => after (Logged l m) (run h k s)
  | Call c k =>
      match h c s with
      | (inl v, s') => after (Called c) (run h (k v) s')
      | (inr e, s') => Outcome [Called c] (inr e) s'
      end
  end.

(** [answers h c v]: whatever their state, the collaborators answer the
    call [c] with the value [v]. *)
Definition answers {S : Type} (h : handler S) (c : call) (v : value) : Prop :=
  forall s, fst (h c s) = inl v.

(** ** moment-timezone

    The date library is used through a handful of operations on its moment
    objects.  Parsing and formatting dates is the library's business; the
    commands are stated over any implementation of this interface. *)
Module Moment.

Class lib : Type := {
  t : Type;
  (** [moment.utc(input, format)] *)
  parse_utc : string -> string -> t;
  (** [moment.unix(timestamp)] *)
  unix : value -> t;
  (** [m.utc()] *)
  utc : t -> t;
  (** [m.isValid()] *)
  isValid : t -> bool;
  (** the private property [m._tzm] *)
  _tzm : t -> value;
  (** [m.utcOffset(offset)] *)
  utcOffset : t -> value -> t;
  (** [m.tz(zone)] *)
  tz : t -> value -> t;
  (** [m.format(pattern)] *)
  format : t -> value -> string
}.

(** How [m.utcOffset(input)] reads a Number, as the library documents it:
    a magnitude below 16 is a number of hours, anything else a number of
    minutes. *)
Definition minutes_of (input : JS.number) : JS.number :=
  if JS.lt (JS.Math_abs input) (JS.of_Z 16) then JS.mul input (JS.of_Z 60)
  else input.

(** The Numbers that [m.utcOffset(input)] reads as minutes, as they are:
    those of magnitude 16 or more, and the zeros. *)
Definition minute_sized (input : JS.number) : bool :=
  negb (JS.lt (JS.Math_abs input) (JS.of_Z 16))
  || match input with S754_zero _ => true | _ => false end.

(** A library whose offsets can be told apart: [at_minutes m n] is
    [m.utcOffset(n, false, true)], the moment [m] at the offset of [n]
    minutes, and [m.utcOffset(n)] on a Number [n] is that after the
    reading above. *)
Class offsets (M : lib) : Type := {
  at_minutes : t -> JS.number -> t;
  utcOffset_number :
    forall (m : t) (n : JS.number),
      utcOffset m (VNum n) = at_minutes m (minutes_of n)
}.

End Moment.

(** ** The commands *)

Definition MOMENT_FORMAT_ISO8601 : string := "YYYY-MM-DDTHH:mm:ssZ".

(** A default parameter value: it stands in for an argument that is
    [undefined]. *)
Definition default (arg : value) (d : value) : value :=
  match arg with
  | VUndefined => d
  | _ => arg
  end.

(** [a || b] *)
Definition or_else (a b : value) : value :=
  if Value.truthy a then a else b.

(** [v === s] for a string [s] *)
Definition is_string (v : value) (s : string) : bool :=
  match v with
  | VStr x => String.eqb x s
  | _ => false
  end.

(** [v.key] where [v] is known to be neither [undefined] nor [null]. *)
Definition read (v : value) (key : string) : value :=
  match Value.prop v key with
  | Some x => x
  | None => VUndefined
  end.

(** [v.trim()]: a TypeError unless [v] is a string. *)
Definition trim_of (v : value) : prog string :=
  match v with
  | VStr s => Ret (JS.trim s)
  | _ => Throw TypeError
  end.

Definition join_space (l : list string) : string := String.concat " " l.

Definition double_quote : string := String (ascii_of_N 34) EmptyString.

Module Background.

Definition homescreen : string := "/wda/homescreen".
Definition deactivateApp : string := "/wda/deactivateApp".

(** The two variables the closure [selectEndpoint] assigns. *)
Record selection : Type := Selection {
  endpoint : option string;
  params : list (string * value)
}.

Definition initial : selection := Selection None [].

Definition selectEndpoint (timeoutSeconds : value) (st : selection) : selection :=
  if negb (Support.hasValue timeoutSeconds) then
    Selection (Some homescreen) (params st)
  else if negb (Value.isNaN timeoutSeconds) then
    let duration := Value.parseFloat timeoutSeconds in
    if JS.ge duration (JS.of_Z 0) then
      Selection (Some deactivateApp) [("duration", VNum duration)]
    else
      Selection (Some homescreen) (params st)
  else st.

(** Whether the argument is taken as an options object. *)
Definition has_timeout (seconds : value) : bool :=
  Value.truthy seconds && negb (Lodash.isNumber seconds)
  && Lodash.has seconds "timeout".

Definition background (seconds : value) : prog value :=
  let st :=
    if has_timeout seconds then
      let timeout := read seconds "timeout" in
      selectEndpoint
        (if Value.isNaN (VNum (Value.Number timeout)) then timeout
         else VNum (JS.div (Value.parseFloat timeout) (JS.of_Z 1000)))
        initial
    else
      selectEndpoint seconds initial in
  match endpoint st with
  | None =>
      Throw (InvalidArgumentError
               [Text "Argument value is expected to be a valid number. ";
                Json seconds; Text " has been provided instead"])
  | Some endpoint =>
      r <- await (proxyCommand endpoint "POST" (Some (VObj (params st)))
                    (Some (negb (String.eqb endpoint homescreen)))) ;;
      Ret r
  end.

(** The timeout candidate: the [timeout] property of an options object,
    the argument itself otherwise. *)
Definition candidate (seconds : value) : value :=
  if has_timeout seconds then read seconds "timeout" else seconds.

(** The argument [selectEndpoint] is called with: the candidate, read as
    milliseconds when it comes from an options object and converts to a
    Number. *)
Definition selected (seconds : value) : value :=
  if has_timeout seconds then
    let timeout := read seconds "timeout" in
    if Value.isNaN (VNum (Value.Number timeout)) then timeout
    else VNum (JS.div (Value.parseFloat timeout) (JS.of_Z 1000))
  else seconds.

(** The two requests [background] can send. *)
Definition restoreHome : prog value :=
  await (proxyCommand homescreen "POST" (Some (VObj [])) (Some false)).

Definition deactivateWithDuration (duration : JS.number) : prog value :=
  await (proxyCommand deactivateApp "POST"
           (Some (VObj [("duration", VNum duration)])) (Some true)).

Definition invalidArgument (seconds : value) : prog value :=
  Throw (InvalidArgumentError
           [Text "Argument value is expected to be a valid number. ";
            Json seconds; Text " has been provided instead"]).

(** What [background] does once [selectEndpoint] has run. *)
Definition dispatch (seconds : value) (st : selection) : prog value :=
  match endpoint st with
  | None => invalidArgument seconds
  | Some endpoint =>
      await (proxyCommand endpoint "POST" (Some (VObj (params st)))
               (Some (negb (String.eqb endpoint homescreen))))
  end.

End Background.

Export Background.

Section Commands.

Context {M : Moment.lib}.

Definition getWindowSizeWeb : prog value :=
  r <- await (executeAtom "get_window_size" []) ;; Ret r.

Definition getWindowSizeNative : prog value :=
  r <- await (proxyCommand "/window/size" "GET" None None) ;; Ret r.

Definition getWindowSize (windowHandle : value) : prog value :=
  let windowHandle := default windowHandle (VStr "current") in
  if negb (is_string windowHandle "current") then
    Throw (NotYetImplementedError
             [Text "Currently only getting current window size is supported."])
  else
    web <- await isWebContext ;;
    if negb (Value.truthy web) then r <- getWindowSizeNative ;; Ret r
    else r <- getWindowSizeWeb ;; Ret r.

(** [m.utcOffset(offset).format(pattern)].  With an offset that is
    [undefined] or [null] the first call is the getter of the library: it
    returns a Number, and a Number has no [format] method. *)
Definition format_at (m : Moment.t) (offset pattern : value) : prog value :=
  if Lodash.isNil offset then Throw TypeError
  else Ret (VStr (Moment.format (Moment.utcOffset m offset) pattern)).

Definition getDeviceTime (format : value) : prog value :=
  let format := default format (VStr MOMENT_FORMAT_ISO8601) in
  log info [Text "Attempting to capture iOS device date and time"] ;;;
  real <- await isRealDevice ;;
  if negb (Value.truthy real) then
    log info [Text "On simulator. Assuming device time is the same as host time"] ;;;
    let cmd := "date" in
    let args := ["+%Y-%m-%dT%H:%M:%S%z"] in
    let inputFormat := "YYYY-MM-DDTHH:mm:ssZZ" in
    out <- await (exec cmd args) ;;
    raw <- get out "stdout" ;;
    stdout <- trim_of raw ;;
    log debug [Text "Got the following output out of '"; Text cmd; Text " ";
               Text (join_space args); Text "': "; Text stdout] ;;;
    let parsedTimestamp := Moment.parse_utc stdout inputFormat in
    if negb (Moment.isValid parsedTimestamp) then
      log warn [Text "Cannot parse the timestamp '"; Text stdout;
                Text "' returned by '"; Text cmd;
                Text "' command. Returning it as is"] ;;;
      Ret (VStr stdout)
    else
      format_at parsedTimestamp
        (or_else (Moment._tzm parsedTimestamp) (VNum (JS.of_Z 0))) format
  else
    udid <- await (opts "udid") ;;
    reading <- await (utilities_getDeviceTime udid) ;;
    timestamp <- get reading "timestamp" ;;
    utcOffset <- get reading "utcOffset" ;;
    timeZone <- get reading "timeZone" ;;
    log debug [Text "timestamp: "; Interp timestamp; Text ", utcOffset: ";
               Interp utcOffset; Text ", timeZone: "; Interp timeZone] ;;;
    let utc := Moment.utc (Moment.unix timestamp) in
    if JS.le (Value.Math_abs utcOffset) (JS.mul (JS.of_Z 12) (JS.of_Z 60)) then
      format_at utc utcOffset format
    else if Lodash.includes timeZone "/" then
      Ret (VStr (Moment.format (Moment.tz utc timeZone) format))
    else if JS.le (Value.Math_abs timeZone)
                  (JS.mul (JS.mul (JS.of_Z 12) (JS.of_Z 60)) (JS.of_Z 60)) then
      format_at utc (VNum (Value.over timeZone (VNum (JS.of_Z 60)))) format
    else
      log warn [Text "Did not know how to apply the UTC offset. Returning the timestamp without it"] ;;;
      Ret (VStr (Moment.format utc format)).

Definition mobileGetDeviceTime (format : value) : prog value :=
  let format := default format (VStr MOMENT_FORMAT_ISO8601) in
  r <- getDeviceTime format ;; Ret r.

Definition getWindowRect : prog value :=
  size <- getWindowSize VUndefined ;;
  width <- get size "width" ;;
  height <- get size "height" ;;
  Ret (VObj [("width", width); ("height", height);
             ("x", VNum (JS.of_Z 0)); ("y", VNum (JS.of_Z 0))]).

Definition getScreenInfo : prog value :=
  r <- await (proxyCommand "/wda/screen" "GET" None None) ;; Ret r.

Definition getStatusBarHeight : prog value :=
  screen <- getScreenInfo ;;
  statusBarSize <- get screen "statusBarSize" ;;
  get statusBarSize "height".

Definition getDevicePixelRatio : prog value :=
  screen <- getScreenInfo ;;
  scale <- get screen "scale" ;;
  Ret scale.

Definition getViewportRect : prog value :=
  scale <- getDevicePixelRatio ;;
  height <- getStatusBarHeight ;;
  let statusBarHeight := JS.Math_round (Value.times height scale) in
  windowSize <- getWindowSize VUndefined ;;
  width <- get windowSize "width" ;;
  h <- get windowSize "height" ;;
  Ret (VObj [("left", VNum (JS.of_Z 0));
             ("top", VNum statusBarHeight);
             ("width", VNum (Value.times width scale));
             ("height", VNum (JS.sub (Value.times h scale) statusBarHeight))]).

Definition mobilePressButton (name durationSeconds : value) : prog value :=
  if negb (Value.truthy name) then
    Throw (InvalidArgumentError [Text "Button name is mandatory"])
  else if negb (Lodash.isNil durationSeconds)
          && negb (Lodash.isNumber durationSeconds) then
    Throw (InvalidArgumentError [Text "durationSeconds should be a number"])
  else
    r <- await (proxyCommand "/wda/pressButton" "POST"
                  (Some (VObj [("name", name); ("duration", durationSeconds)]))
                  None) ;;
    Ret r.

Definition mobileSiriCommand (text : value) : prog value :=
  if negb (Value.truthy text) then
    Throw (InvalidArgumentError
             [Text double_quote; Text "text"; Text double_quote;
              Text " argument is mandatory"])
  else
    r <- await (proxyCommand "/wda/siri/activate" "POST"
                  (Some (VObj [("text", text)])) None) ;;
    Ret r.

End Commands.

(** ** Inputs and collaborators the statements speak of *)

(** The inputs the documentation of [background] names: nothing, a Number,
    or an options object whose [timeout] is [undefined], [null] or a
    Number. *)
Definition timing_input (seconds : value) : bool :=
  match seconds with
  | VUndefined | VNull | VNum _ => true
  | VObj props =>
      match Value.lookup "timeout" props with
      | Some (VUndefined | VNull | VNum _) => true
      | _ => false
      end
  | _ => false
  end.

(** The call [getWindowSize] makes in a context whose flag is [web]. *)
Definition window_size_call (web : value) : call :=
  if negb (Value.truthy web) then proxyCommand "/window/size" "GET" None None
  else executeAtom "get_window_size" [].

Definition screen_call : call := proxyCommand "/wda/screen" "GET" None None.

Definition date_call : call := exec "date" ["+%Y-%m-%dT%H:%M:%S%z"].

(** The reading of a physical device. *)
Definition reading (timestamp utcOffset timeZone : value) : value :=
  VObj [("timestamp", timestamp); ("utcOffset", utcOffset);
        ("timeZone", timeZone)].

(** The UTC instant of a device timestamp: [moment.unix(timestamp).utc()]. *)
Definition utc_instant {M : Moment.lib} (timestamp : value) : Moment.t :=
  Moment.utc (Moment.unix timestamp).

(** The resolution order of the specification (4.2, a to d): the offset in
    minutes when its magnitude is at most 12 * 60; else the zone when the
    zone hint holds a slash; else the hint as an offset in seconds,
    converted to minutes, when its magnitude is at most 12 * 60 * 60; else
    the bare UTC instant. *)
Definition resolveOffset {M : Moment.lib} (utc : Moment.t)
    (utcOffset timeZone : value) : Moment.t :=
  if JS.le (Value.Math_abs utcOffset) (JS.of_Z (12 * 60)) then
    Moment.utcOffset utc utcOffset
  else if Lodash.includes timeZone "/" then
    Moment.tz utc timeZone
  else if JS.le (Value.Math_abs timeZone) (JS.of_Z (12 * 60 * 60)) then
    Moment.utcOffset utc (VNum (Value.over timeZone (VNum (JS.of_Z 60))))
  else utc.

(** What [getDeviceTime] returns when it formats the moment [m]. *)
Definition formatted {M : Moment.lib} (m : Moment.t) (format : value)
  : value + error :=
  inl (VStr (Moment.format m (default format (VStr MOMENT_FORMAT_ISO8601)))).

(** The pattern the output of [date] is parsed against. *)
Definition inputFormat : string := "YYYY-MM-DDTHH:mm:ssZZ".

(** The rectangle of the specification, for a window of the given size:
    [{width, height, x: 0, y: 0}]. *)
Definition windowRect (width height : value) : value :=
  VObj [("width", width); ("height", height);
        ("x", VNum (JS.of_Z 0)); ("y", VNum (JS.of_Z 0))].

(** The viewport of the specification: with
    [statusBarHeightDevicePx = round (statusBarHeightLogical * scale)],
    [{left: 0, top: statusBarHeightDevicePx, width: windowWidth * scale,
      height: windowHeight * scale - statusBarHeightDevicePx}]. *)
Definition viewportRect (scale statusBarHeightLogical windowWidth windowHeight : value)
  : value :=
  let statusBarHeightDevicePx :=
    JS.Math_round (Value.times statusBarHeightLogical scale) in
  VObj [("left", VNum (JS.of_Z 0));
        ("top", VNum statusBarHeightDevicePx);
        ("width", VNum (Value.times windowWidth scale));
        ("height", VNum (JS.sub (Value.times windowHeight scale)
                           statusBarHeightDevicePx))].

(** Two calls of [getWindowRect] in a row. *)
Definition getWindowRect_twice : prog (value * value) :=
  first <- getWindowRect ;;
  second <- getWindowRect ;;
  Ret (first, second).

(** A device to run the commands against: its collaborators answer from
    fixed data and count the calls they served. *)
Module Sample.

Record device : Type := Device {
  web : bool;
  real : bool;
  screen : value;
  window : value;
  date_output : string;
  clock : value
}.

Definition collaborators (d : device) : handler nat :=
  fun c served =>
    let answer :=
      match c with
      | isWebContext => VBool (web d)
      | isRealDevice => VBool (real d)
      | opts _ => VStr "00008030-001C2D903C42802E"
      | utilities_getDeviceTime _ => clock d
      | exec _ _ => VObj [("stdout", VStr (date_output d))]
      | executeAtom _ _ => window d
      | proxyCommand url _ _ _ =>
          if String.eqb url "/wda/screen" then screen d
          else if String.eqb url "/window/size" then window d
          else VNull
      end in
    (inl answer, Datatypes.S served).

(** A stand-in for the date library that records the operations applied
    to a moment.  It accepts an input of the shape
    [dddd-dd-ddTdd:dd:dd+dddd] and formats a moment as the list of what was
    done to it. *)
Inductive recorded : Type :=
| Parsed (input pattern : string)
| Unix (timestamp : value)
| Utc (m : recorded)
| Offset (m : recorded) (offset : value)
| Zone (m : recorded) (zone : value).

Definition is_digit (c : ascii) : bool :=
  match JS.digit_value 10 c with Some _ => true | None => false end.

Fixpoint shaped (shape input : string) : bool :=
  match shape, input with
  | EmptyString, EmptyString => true
  | String p shape', String c input' =>
      (if Ascii.eqb p "d" then is_digit c
       else if Ascii.eqb p "+" then Ascii.eqb c "+" || Ascii.eqb c "-"
       else Ascii.eqb p c)
      && shaped shape' input'
  | _, _ => false
  end.

Definition valid (m : recorded) : bool :=
  match m with
  | Parsed input _ => shaped "dddd-dd-ddTdd:dd:dd+dddd" input
  | _ => true
  end.

Fixpoint describe (m : recorded) : string :=
  match m with
  | Parsed input _ => "parsed " ++ input
  | Unix _ => "unix"
  | Utc m' => describe m' ++ ".utc"
  | Offset m' _ => describe m' ++ ".utcOffset"
  | Zone m' zone => describe m' ++ ".tz " ++ Value.text_of zone
  end.

Definition moment : Moment.lib := {|
  Moment.t := recorded;
  Moment.parse_utc := Parsed;
  Moment.unix := Unix;
  Moment.utc := Utc;
  Moment.isValid := valid;
  Moment._tzm := fun _ => VUndefined;
  Moment.utcOffset := Offset;
  Moment.tz := Zone;
  Moment.format := fun m pattern => describe m ++ " as " ++ Value.text_of pattern
|}.

(** An iPhone with a 400 x 800 window at scale 2 and a status bar of 20. *)
Definition phone : device := {|
  web := false;
  real := true;
  screen := VObj [("statusBarSize",
                   VObj [("width", VNum (JS.of_Z 400));
                         ("height", VNum (JS.of_Z 20))]);
                  ("scale", VNum (JS.of_Z 2))];
  window := VObj [("width", VNum (JS.of_Z 400));
                  ("height", VNum (JS.of_Z 800))];
  date_output := "";
  clock := reading (VNum (JS.of_Z 1700000000)) (VNum (JS.of_Z 900))
             (VStr "Europe/Berlin")
|}.

(** A simulator whose host [date] command printed something else than a
    date. *)
Definition simulator : device := {|
  web := false;
  real := false;
  screen := VNull;
  window := VNull;
  date_output := "date: illegal time format
";
  clock := VNull
|}.

End Sample.

(** A date library that shows what it was told: a moment is the calls
    made on it, with a Number offset kept as the minutes it was read as,
    and [format] writes them out. *)
Module Clock.

Inductive shown : Type :=
| Parsed (input pattern : string)
| Unix (timestamp : value)
| Utc (m : shown)
| AtMinutes (m : shown) (minutes : JS.number)
| AtOffset (m : shown) (offset : value)
| InZone (m : shown) (zone : value).

(** The integer a Number is, when it is one. *)
Definition to_Z (n : JS.number) : option Z :=
  match n with
  | S754_zero _ => Some 0
  | S754_finite s m e =>
      if 0 <=? e then Some (cond_Zopp s (Zpos m * 2 ^ e))
      else if Zpos m mod 2 ^ (- e) =? 0
           then Some (cond_Zopp s (Zpos m / 2 ^ (- e)))
           else None
  | _ => None
  end.

Definition show_number (n : JS.number) : string :=
  match to_Z n with
  | Some z => NilZero.string_of_int (Z.to_int z)
  | None => "?"
  end.

Definition show_value (v : value) : string :=
  match v with
  | VNum n => show_number n
  | _ => Value.text_of v
  end.

Fixpoint show (m : shown) : string :=
  match m with
  | Parsed input _ => "parsed " ++ input
  | Unix timestamp => "unix " ++ show_value timestamp
  | Utc m' => show m' ++ ", utc"
  | AtMinutes m' minutes =>
      show m' ++ ", at " ++ show_number minutes ++ " minutes"
  | AtOffset m' offset => show m' ++ ", at " ++ show_value offset
  | InZone m' zone => show m' ++ ", in " ++ show_value zone
  end.

Definition set_offset (m : shown) (offset : value) : shown :=
  match offset with
  | VNum n => AtMinutes m (Moment.minutes_of n)
  | _ => AtOffset m offset
  end.

Definition moment : Moment.lib := {|
  Moment.t := shown;
  Moment.parse_utc := Parsed;
  Moment.unix := Unix;
  Moment.utc := Utc;
  Moment.isValid := fun _ => true;
  Moment._tzm := fun _ => VUndefined;
  Moment.utcOffset := set_offset;
  Moment.tz := InZone;
  Moment.format :=
    fun m pattern => show m ++ " as " ++ Value.text_of pattern
|}.

Definition offsets : Moment.offsets moment := {|
  Moment.at_minutes := AtMinutes : @Moment.t moment -> JS.number -> @Moment.t moment;
  Moment.utcOffset_number := fun m n => eq_refl
|}.

(** A physical device whose time service gives the reading. *)
Definition device (utcOffset timeZone : value) : Sample.device :=
  Sample.Device false true VNull VNull EmptyString
    (reading (VNum (JS.of_Z 1700000000)) utcOffset timeZone).

End Clock.

(** A phone at scale 3 whose status bar is 20.5 high. *)
Definition tall_phone : Sample.device :=
  Sample.Device false true
    (VObj [("statusBarSize",
            VObj [("width", VNum (JS.of_Z 400));
                  ("height", VNum (JS.div (JS.of_Z 41) (JS.of_Z 2)))]);
           ("scale", VNum (JS.of_Z 3))])
    (VObj [("width", VNum (JS.of_Z 400)); ("height", VNum (JS.of_Z 800))])
    EmptyString VNull.

(** ** The commands that catch, delegate and navigate

    [launchApp] and [closeApp] catch what the session throws, and [active],
    [touchId], [toggleEnrollTouchId], [removeApp] and [setUrl] go through
    further methods of the driver.  These commands are embedded over the
    methods below; next to the collaborators above there are the methods
    of the web, biometric, application and session commands, the remote
    debugger and the simulator control. *)

(** [fails h c e]: whatever their state, the collaborators fail the call
    [c] with the error [e]. *)
Definition fails {S : Type} (h : handler S) (c : call) (e : error) : Prop :=
  forall s, fst (h c s) = inr e.

(** Collaborators whose WDA proxy, or whose host [date] command, is out of
    order; the others answer as those of the sample device. *)
Definition outage : error := Rejected (VStr "socket hang up").

Definition without_proxy (d : Sample.device) : handler nat :=
  fun c served =>
    match c with
    | proxyCommand _ _ _ _ => (inr outage, Datatypes.S served)
    | _ => Sample.collaborators d c served
    end.

Definition without_date (d : Sample.device) : handler nat :=
  fun c served =>
    match c with
    | exec _ _ => (inr outage, Datatypes.S served)
    | _ => Sample.collaborators d c served
    end.

(** Collaborators whose [date] command answers with [answer]. *)
Definition with_date_answer (answer : value) (d : Sample.device)
  : handler nat :=
  fun c served =>
    match c with
    | exec _ _ => (inl answer, Datatypes.S served)
    | _ => Sample.collaborators d c served
    end.



Definition pressButtonCall (name durationSeconds : value) : call :=
  proxyCommand "/wda/pressButton" "POST"
    (Some (VObj [("name", name); ("duration", durationSeconds)])) None.

Definition siriCall (text : value) : call :=
  proxyCommand "/wda/siri/activate" "POST" (Some (VObj [("text", text)])) None.

(** The object with a NaN top, width and height. *)
Definition nanRect : value :=
  VObj [("left", VNum (JS.of_Z 0)); ("top", VNum JS.NaN);
        ("width", VNum JS.NaN); ("height", VNum JS.NaN)].

(** The log lines of [getDeviceTime]. *)
Definition logAttempt : event :=
  Logged info [Text "Attempting to capture iOS device date and time"].

Definition logSimulator : event :=
  Logged info
    [Text "On simulator. Assuming device time is the same as host time"].

Definition logOutput (stdout : string) : event :=
  Logged debug
    [Text "Got the following output out of '"; Text "date"; Text " ";
     Text "+%Y-%m-%dT%H:%M:%S%z"; Text "': "; Text stdout].

Definition logCannotParse (stdout : string) : event :=
  Logged warn
    [Text "Cannot parse the timestamp '"; Text stdout;
     Text "' returned by '"; Text "date";
     Text "' command. Returning it as is"].

Definition logReading (timestamp utcOffset timeZone : value) : event :=
  Logged debug
    [Text "timestamp: "; Interp timestamp; Text ", utcOffset: ";
     Interp utcOffset; Text ", timeZone: "; Interp timeZone].

Definition logNoOffset : event :=
  Logged warn
    [Text "Did not know how to apply the UTC offset. Returning the timestamp without it"].

(** Whether one of the first three steps of the resolution order applies. *)
Definition offset_known (utcOffset timeZone : value) : bool :=
  JS.le (Value.Math_abs utcOffset) (JS.of_Z (12 * 60))
  || Lodash.includes timeZone "/"
  || JS.le (Value.Math_abs timeZone) (JS.of_Z (12 * 60 * 60)).

Module Driver.

Inductive method : Type :=
| base (c : call)
| cacheWebElements (response : value)
| mobileSendBiometricMatch (type : string) (isMatch : value)
| mobileEnrollBiometric (isEnabled : value)
| mobileRemoveApp (bundleId : value)
| start
| stop
| setCurrentUrl (url : value)
| remote_navToUrl (url : value)
| simctl_openUrl (url : value).

(** A computation that can catch: [Ask c k] calls the method [c] and goes
    on with [k] on its answer or its failure; [Clear field k] assigns the
    empty array to a field of the driver. *)
Inductive proc (A : Type) : Type :=
| Done (a : A)
| Fail (e : error)
| Say (l : level) (m : message) (k : proc A)
| Clear (field : string) (k : proc A)
| Ask (c : method) (k : value + error -> proc A).

Arguments Done {A} a.
Arguments Fail {A} e.
Arguments Say {A} l m k.
Arguments Clear {A} field k.
Arguments Ask {A} c k.

Fixpoint seq {A B : Type} (p : proc A) (f : A -> proc B) : proc B :=
  match p with
  | Done a => f a
  | Fail e => Fail e
  | Say l m k => Say l m (seq k f)
  | Clear field k => Clear field (seq k f)
  | Ask c k => Ask c (fun r => seq (k r) f)
  end.

(** A method call whose failure is thrown on. *)
Definition call_method (c : method) : proc value :=
  Ask c (fun r => match r with inl v => Done v | inr e => Fail e end).

(** [try { p } catch (err) { on_error err }] *)
Fixpoint try_catch {A : Type} (p : proc A) (on_error : error -> proc A)
  : proc A :=
  match p with
  | Done a => Done a
  | Fail e => on_error e
  | Say l m k => Say l m (try_catch k on_error)
  | Clear field k => Clear field (try_catch k on_error)
  | Ask c k => Ask c (fun r => try_catch (k r) on_error)
  end.

Notation "x <~ p ;; q" := (seq p (fun x => q))
  (at level 61, p at next level, right associativity).
Notation "p ~;; q" := (seq p (fun _ => q))
  (at level 61, right associativity).

Definition say (l : level) (m : message) : proc unit := Say l m (Done tt).

Definition clear (field : string) : proc unit := Clear field (Done tt).

Inductive step : Type :=
| Asked (c : method)
| Said (l : level) (m : message)
| Cleared (field : string).

Definition handler (S : Type) : Type := method -> S -> (value + error) * S.

Record report (S A : Type) : Type := Report {
  steps : list step;
  ending : A + error;
  rest : S
}.

Arguments Report {S A} steps ending rest.
Arguments steps {S A} r.
Arguments ending {S A} r.
Arguments rest {S A} r.

Definition then_ {S A : Type} (e : step) (r : report S A) : report S A :=
  Report (e :: steps r) (ending r) (rest r).

Fixpoint perform {S A : Type} (h : handler S) (p : proc A) (s : S)
  : report S A :=
  match p with
  | Done a => Report [] (inl a) s
  | Fail e => Report [] (inr e) s
  | Say l m k => then_ (Said l m) (perform h k s)
  | Clear field k => then_ (Cleared field) (perform h k s)
  | Ask c k =>
      let '(r, s') := h c s in then_ (Asked c) (perform h (k r) s')
  end.

(** [replies h c r]: whatever its state, the driver answers the method
    [c] with [r], a value or a failure. *)
Definition replies {S : Type} (h : handler S) (c : method) (r : value + error)
  : Prop :=
  forall s, fst (h c s) = r.

(** [this.opts.app || this.opts.bundleId] *)
Definition appName : proc value :=
  app <~ call_method (base (opts "app")) ;;
  if Value.truthy app then Done app
  else call_method (base (opts "bundleId")).

Definition active : proc value :=
  web <~ call_method (base isWebContext) ;;
  if Value.truthy web then
    element <~ call_method (base (executeAtom "active_element" [])) ;;
    call_method (cacheWebElements element)
  else
    r <~ call_method (base (proxyCommand "/element/active" "GET" None None)) ;;
    Done r.

Definition touchId (isMatch : value) : proc value :=
  let isMatch := default isMatch (VBool true) in
  call_method (mobileSendBiometricMatch "touchId" isMatch) ~;;
  Done VUndefined.

Definition toggleEnrollTouchId (isEnabled : value) : proc value :=
  let isEnabled := default isEnabled (VBool true) in
  call_method (mobileEnrollBiometric isEnabled) ~;;
  Done VUndefined.

Definition removeApp (bundleId : value) : proc value :=
  call_method (mobileRemoveApp bundleId) ~;;
  Done VUndefined.

Definition launchApp : proc value :=
  say warn [Text "launchApp is deprecated. Please use activateApp, mobile:launchApp or create a new session instead."] ~;;
  appName <~ appName ;;
  try_catch
    (call_method start ~;;
     say info [Text "Successfully started a session by launching '";
               Interp appName; Text "'."] ~;;
     Done VUndefined)
    (fun err =>
       say warn [Text "Something went wrong while launching the '";
                 Interp appName; Text "' app."] ~;;
       Fail err).

Definition closeApp : proc value :=
  say warn [Text "closeApp is deprecated. Please use terminateApp, mobile:terminateApp, mobile:killApp or quit the session instead."] ~;;
  appName <~ appName ;;
  try_catch
    (call_method stop ~;;
     say info [Text "Successfully stopped the sessiuon for '";
               Interp appName; Text "'."] ~;;
     Done VUndefined)
    (fun err =>
       say warn [Text "Something went wrong while closing the '";
                 Interp appName; Text "' app."] ~;;
       Fail err).

Definition setUrl (url : value) : proc value :=
  say debug [Text "Attempting to set url '"; Interp url; Text "'"] ~;;
  web <~ call_method (base isWebContext) ;;
  if Value.truthy web then
    call_method (setCurrentUrl url) ~;;
    clear "curWebFrames" ~;;
    call_method (remote_navToUrl url) ~;;
    Done VUndefined
  else
    real <~ call_method (base isRealDevice) ;;
    if Value.truthy real then
      call_method (base (proxyCommand "/url" "POST"
                           (Some (VObj [("url", url)])) None)) ~;;
      Done VUndefined
    else
      call_method (simctl_openUrl url) ~;;
      Done VUndefined.

(** The log lines of [launchApp] and [closeApp]. *)
Definition launchDeprecated : step :=
  Said warn [Text "launchApp is deprecated. Please use activateApp, mobile:launchApp or create a new session instead."].

Definition launchSucceeded (name : value) : step :=
  Said info [Text "Successfully started a session by launching '";
             Interp name; Text "'."].

Definition launchWentWrong (name : value) : step :=
  Said warn [Text "Something went wrong while launching the '";
             Interp name; Text "' app."].

Definition closeDeprecated : step :=
  Said warn [Text "closeApp is deprecated. Please use terminateApp, mobile:terminateApp, mobile:killApp or quit the session instead."].

Definition closeSucceeded (name : value) : step :=
  Said info [Text "Successfully stopped the sessiuon for '";
             Interp name; Text "'."].

Definition closeWentWrong (name : value) : step :=
  Said warn [Text "Something went wrong while closing the '";
             Interp name; Text "' app."].

Definition settingUrl (url : value) : step :=
  Said debug [Text "Attempting to set url '"; Interp url; Text "'"].

(** What reading the name of the application asks for: the [app] option,
    and the [bundleId] option when there is no [app]. *)
Definition appNameSteps (app : value) : list step :=
  Asked (base (opts "app"))
  :: (if Value.truthy app then [] else [Asked (base (opts "bundleId"))]).

(** How a command that returns nothing ends after a method answered
    [r]. *)
Definition ends_as (r : value + error) : value + error :=
  match r with
  | inl _ => inl VUndefined
  | inr e => inr e
  end.

(** A driver to run these commands against: the session starts and stops,
    and the page loads, unless it is [broken]; the options name the
    application when [named]. *)
Record setup : Type := Setup {
  web : bool;
  real : bool;
  named : bool;
  broken : bool
}.

Definition stub (d : setup) : handler nat :=
  fun c served =>
    let answer :=
      match c with
      | base isWebContext => inl (VBool (web d))
      | base isRealDevice => inl (VBool (real d))
      | base (opts name) =>
          if String.eqb name "app" then
            inl (if named d then VStr "/apps/Demo.app" else VUndefined)
          else inl (VStr "com.example.demo")
      | base _ => inl VNull
      | cacheWebElements response => inl response
      | start | stop | remote_navToUrl _ =>
          if broken d then inr outage else inl VUndefined
      | _ => inl VNull
      end in
    (answer, Datatypes.S served).

End Driver.

(** ** The coercions on sample inputs *)
Section CoercionExamples.

Example Number_of_digits : Value.Number (VStr "5000") = JS.of_Z 5000.
Proof. reflexivity. Qed.

Example Number_of_text : Value.Number (VStr "abc") = JS.NaN.
Proof. reflexivity. Qed.

Example Number_of_empty_text : Value.Number (VStr EmptyString) = JS.of_Z 0.
Proof. reflexivity. Qed.

Example Number_of_hex : Value.Number (VStr "0x10") = JS.of_Z 16.
Proof. reflexivity. Qed.

Example Number_of_padded : Value.Number (VStr " 12 ") = JS.of_Z 12.
Proof. reflexivity. Qed.

Example Number_of_object : Value.isNaN (VObj []) = true.
Proof. reflexivity. Qed.

Example parseFloat_of_prefix : Value.parseFloat (VStr "5abc") = JS.of_Z 5.
Proof. reflexivity. Qed.

Example parseFloat_of_hex : Value.parseFloat (VStr "0x10") = JS.of_Z 0.
Proof. reflexivity. Qed.

Example parseFloat_of_null : Value.parseFloat VNull = JS.NaN.
Proof. reflexivity. Qed.

Example parseFloat_of_fraction :
  Value.parseFloat (VStr "-.5e1x") = JS.of_Z (-5).
Proof. reflexivity. Qed.

Example round_half_up :
  JS.Math_round (JS.div (JS.of_Z 5) (JS.of_Z 2)) = JS.of_Z 3
  /\ JS.Math_round (JS.div (JS.of_Z (-5)) (JS.of_Z 2)) = JS.of_Z (-2)
  /\ JS.Math_round (JS.div (JS.of_Z (-1)) (JS.of_Z 2)) = S754_zero true.
Proof. repeat split. Qed.

Example milliseconds_to_seconds :
  JS.div (JS.of_Z 5000) (JS.of_Z 1000) = JS.of_Z 5.
Proof. reflexivity. Qed.

Example trim_output : JS.trim "  2023-11-14T22:13:20+0000
" = "2023-11-14T22:13:20+0000".
Proof. reflexivity. Qed.

End CoercionExamples.

(** ** Running a command *)
Section RunFacts.

Context {S : Type} (h : handler S).

Lemma run_call {A : Type} (c : call) (k : value -> prog A) (v : value) (s : S) :
  answers h c v ->
  run h (Call c k) s = after (Called c) (run h (k v) (snd (h c s))).
Proof.
  intros Hc. simpl. specialize (Hc s).
  destruct (h c s) as [r s']. simpl in Hc. subst r. reflexivity.
Qed.

Lemma result_call {A : Type} (c : call) (k : value -> prog A) (v : value) (s : S) :
  answers h c v ->
  result (run h (Call c k) s) = result (run h (k v) (snd (h c s))).
Proof. intros Hc. rewrite (run_call c k v s Hc). reflexivity. Qed.

Lemma result_log {A : Type} (l : level) (m : message) (k : prog A) (s : S) :
  result (run h (Log l m k) s) = result (run h k s).
Proof. reflexivity. Qed.

(** Awaiting a command and returning what it gave is running the command. *)
Lemma run_bind_ret {A : Type} (p : prog A) (s : S) :
  run h (x <- p ;; Ret x) s = run h p s.
Proof.
  revert s. induction p as [a | e | l m k IH | c k IH]; intros s; simpl.
  - reflexivity.
  - reflexivity.
  - rewrite IH. reflexivity.
  - destruct (h c s) as [[v | e] s']; [rewrite IH |]; reflexivity.
Qed.

(** A run of [p ;; q] that gets through [p] goes on with [q] from the state
    [p] left. *)
Lemma result_bind {A B : Type} (p : prog A) (f : A -> prog B) (a : A) (s : S) :
  result (run h p s) = inl a ->
  result (run h (bind p f) s) = result (run h (f a) (final (run h p s))).
Proof.
  revert s. induction p as [x | e | l m k IH | c k IH]; intros s; simpl.
  - intros [= ->]. reflexivity.
  - discriminate.
  - intros Hk. apply (IH s Hk).
  - destruct (h c s) as [[v | e] s']; simpl.
    + intros Hk. apply (IH v s' Hk).
    + discriminate.
Qed.

End RunFacts.

(** ** Endpoint selection *)
Section Selection.

Lemma background_dispatch (seconds : value) :
  background seconds
  = dispatch seconds (selectEndpoint (selected seconds) initial).
Proof.
  unfold background, selected, dispatch.
  destruct (has_timeout seconds);
    match goal with
    | |- context [endpoint ?st] => destruct (endpoint st); reflexivity
    end.
Qed.

Lemma selectEndpoint_absent (c : value) :
  Support.hasValue c = false ->
  selectEndpoint c initial = Selection (Some homescreen) [].
Proof. intros H. unfold selectEndpoint. rewrite H. reflexivity. Qed.

Lemma selectEndpoint_duration (c : value) :
  Support.hasValue c = true -> Value.isNaN c = false ->
  JS.ge (Value.parseFloat c) (JS.of_Z 0) = true ->
  selectEndpoint c initial
  = Selection (Some deactivateApp) [("duration", VNum (Value.parseFloat c))].
Proof.
  intros H1 H2 H3. unfold selectEndpoint. rewrite H1, H2. cbn [negb].
  rewrite H3. reflexivity.
Qed.

Lemma selectEndpoint_negative (c : value) :
  Support.hasValue c = true -> Value.isNaN c = false ->
  JS.ge (Value.parseFloat c) (JS.of_Z 0) = false ->
  selectEndpoint c initial = Selection (Some homescreen) [].
Proof.
  intros H1 H2 H3. unfold selectEndpoint. rewrite H1, H2. cbn [negb].
  rewrite H3. reflexivity.
Qed.

Lemma selectEndpoint_not_numeric (c : value) :
  Support.hasValue c = true -> Value.isNaN c = true ->
  selectEndpoint c initial = initial.
Proof. intros H1 H2. unfold selectEndpoint. rewrite H1, H2. reflexivity. Qed.

(** The selection is one of three: nothing, home, or a duration. *)
Lemma selectEndpoint_cases (c : value) :
  (Support.hasValue c = true /\ Value.isNaN c = true
   /\ selectEndpoint c initial = initial)
  \/ selectEndpoint c initial = Selection (Some homescreen) []
  \/ selectEndpoint c initial
     = Selection (Some deactivateApp) [("duration", VNum (Value.parseFloat c))].
Proof.
  destruct (Support.hasValue c) eqn:H1.
  - destruct (Value.isNaN c) eqn:H2.
    + left. auto using selectEndpoint_not_numeric.
    + destruct (JS.ge (Value.parseFloat c) (JS.of_Z 0)) eqn:H3.
      * right; right. auto using selectEndpoint_duration.
      * right; left. auto using selectEndpoint_negative.
  - right; left. auto using selectEndpoint_absent.
Qed.

(** Numbers: the sign decides. *)
Lemma number_nonnegative (n : JS.number) :
  JS.ge n (JS.of_Z 0) = true ->
  Support.hasValue (VNum n) = true /\ Value.isNaN (VNum n) = false
  /\ JS.ge (Value.parseFloat (VNum n)) (JS.of_Z 0) = true.
Proof. destruct n as [s | s | | s m e]; try destruct s; simpl; auto; discriminate. Qed.

Lemma number_negative (n : JS.number) :
  JS.lt n (JS.of_Z 0) = true ->
  Support.hasValue (VNum n) = true /\ Value.isNaN (VNum n) = false
  /\ JS.ge (Value.parseFloat (VNum n)) (JS.of_Z 0) = false.
Proof. destruct n as [s | s | | s m e]; try destruct s; simpl; auto; discriminate. Qed.

Lemma number_nan (n : JS.number) :
  JS.is_nan n = true -> Support.hasValue (VNum n) = false.
Proof. destruct n; simpl; auto; discriminate. Qed.

(** A Number is negative, not negative, or NaN. *)
Lemma number_sign (n : JS.number) :
  JS.is_nan n = true \/ JS.lt n (JS.of_Z 0) = true \/ JS.ge n (JS.of_Z 0) = true.
Proof. destruct n as [s | s | | s m e]; try destruct s; simpl; auto. Qed.

End Selection.

(** ** Rounding keeps the sign *)
Section Rounding.

Lemma shr_1_nonneg (mrs : shr_record) :
  0 <= shr_m mrs -> 0 <= shr_m (shr_1 mrs).
Proof.
  destruct mrs as [m r s]. cbn [shr_m]. intros Hm.
  destruct m as [ | [p | p | ] | p]; cbn; lia.
Qed.

Lemma iter_shr_1_nonneg (p : positive) (mrs : shr_record) :
  0 <= shr_m mrs -> 0 <= shr_m (iter_pos shr_1 p mrs).
Proof.
  revert mrs. induction p as [p IH | p IH | ]; intros mrs Hm; cbn [iter_pos].
  - apply IH, IH, shr_1_nonneg, Hm.
  - apply IH, IH, Hm.
  - apply shr_1_nonneg, Hm.
Qed.

Lemma shr_fexp_nonneg (m e : Z) (l : location) :
  0 <= m -> 0 <= shr_m (fst (shr_fexp JS.prec JS.emax m e l)).
Proof.
  intros Hm. unfold shr_fexp, shr.
  assert (Hrec : 0 <= shr_m (shr_record_of_loc m l)).
  { destruct l as [ | [ | | ]]; exact Hm. }
  destruct (fexp JS.prec JS.emax (Zdigits2 m + e) - e); cbn [fst];
    auto using iter_shr_1_nonneg.
Qed.

Lemma round_nearest_even_nonneg (m : Z) (l : location) :
  0 <= m -> 0 <= round_nearest_even m l.
Proof.
  intros Hm. unfold round_nearest_even.
  destruct l as [ | [ | | ]]; try destruct (Z.even m); lia.
Qed.

(** Rounding a magnitude that is not negative, with the positive sign,
    gives a Number that is at least 0. *)
Lemma binary_round_aux_nonneg (m e : Z) (l : location) :
  0 <= m ->
  JS.ge (binary_round_aux JS.prec JS.emax false m e l) (JS.of_Z 0) = true.
Proof.
  intros Hm. unfold binary_round_aux.
  pose proof (shr_fexp_nonneg m e l Hm) as H1.
  destruct (shr_fexp JS.prec JS.emax m e l) as [mrs' e']. cbn [fst] in H1.
  pose proof (shr_fexp_nonneg
                (round_nearest_even (shr_m mrs') (loc_of_shr_record mrs'))
                e' loc_Exact
                (round_nearest_even_nonneg _ _ H1)) as H2.
  destruct (shr_fexp JS.prec JS.emax
              (round_nearest_even (shr_m mrs') (loc_of_shr_record mrs'))
              e' loc_Exact) as [mrs'' e''].
  cbn [fst] in H2.
  destruct (shr_m mrs'') as [ | p | p].
  - reflexivity.
  - destruct (e'' <=? JS.emax - JS.prec); reflexivity.
  - lia.
Qed.

Lemma div_nonnegative (n : JS.number) :
  JS.ge n (JS.of_Z 0) = true ->
  JS.ge (JS.div (JS.reread n) (JS.of_Z 1000)) (JS.of_Z 0) = true.
Proof.
  destruct n as [s | s | | s m e]; try destruct s; try discriminate;
    intros _; try reflexivity.
  change (JS.of_Z 1000) with (S754_finite false 8796093022208000 (-43)).
  cbn [JS.reread JS.div SFdiv xorb].
  unfold SFdiv_core_binary.
  set (e' := Z.min _ _).
  set (m' := match e - -43 - e' with Z0 => _ | Zpos _ => _ | Zneg _ => _ end).
  assert (Hm' : 0 <= m').
  { subst m'. destruct (e - -43 - e'); try lia. apply Z.shiftl_nonneg. lia. }
  pose proof (Z.div_pos m' 8796093022208000 Hm' ltac:(lia)) as Hq.
  unfold Z.div in Hq.
  destruct (Z.div_eucl m' 8796093022208000) as [q r]. cbn [fst] in Hq.
  apply binary_round_aux_nonneg, Hq.
Qed.

End Rounding.

(** ** [background] *)
Section BackgroundClaims.

Lemma hasValue_number (n : JS.number) :
  Support.hasValue (VNum n) = negb (Value.isNaN (VNum n)).
Proof. reflexivity. Qed.

Lemma background_absent (seconds : value) :
  Support.hasValue (selected seconds) = false ->
  background seconds = restoreHome.
Proof.
  intros H. rewrite background_dispatch, (selectEndpoint_absent _ H).
  reflexivity.
Qed.

Lemma background_negative (seconds : value) :
  Support.hasValue (selected seconds) = true ->
  Value.isNaN (selected seconds) = false ->
  JS.ge (Value.parseFloat (selected seconds)) (JS.of_Z 0) = false ->
  background seconds = restoreHome.
Proof.
  intros H1 H2 H3.
  rewrite background_dispatch, (selectEndpoint_negative _ H1 H2 H3).
  reflexivity.
Qed.

Lemma background_nonnegative (seconds : value) :
  Support.hasValue (selected seconds) = true ->
  Value.isNaN (selected seconds) = false ->
  JS.ge (Value.parseFloat (selected seconds)) (JS.of_Z 0) = true ->
  background seconds
  = deactivateWithDuration (Value.parseFloat (selected seconds)).
Proof.
  intros H1 H2 H3.
  rewrite background_dispatch, (selectEndpoint_duration _ H1 H2 H3).
  reflexivity.
Qed.

Lemma background_not_numeric (seconds : value) :
  Support.hasValue (selected seconds) = true ->
  Value.isNaN (selected seconds) = true ->
  background seconds = invalidArgument seconds.
Proof.
  intros H1 H2.
  rewrite background_dispatch, (selectEndpoint_not_numeric _ H1 H2).
  reflexivity.
Qed.

Lemma selected_number (n : JS.number) : selected (VNum n) = VNum n.
Proof.
  unfold selected, has_timeout. cbn [Lodash.isNumber negb].
  rewrite Bool.andb_false_r. reflexivity.
Qed.

(** An options object whose [timeout] converts to a Number hands that
    timeout over in seconds. *)
Lemma selected_timeout (props : list (string * value)) (t : value) :
  Value.lookup "timeout" props = Some t ->
  Value.isNaN (VNum (Value.Number t)) = false ->
  selected (VObj props) = VNum (JS.div (Value.parseFloat t) (JS.of_Z 1000)).
Proof.
  intros Hl Hn. unfold selected, has_timeout, read. cbn [Value.truthy Lodash.isNumber Lodash.has Value.prop andb negb].
  rewrite Hl, Hn. reflexivity.
Qed.

Lemma selected_timeout_not_numeric (props : list (string * value)) (t : value) :
  Value.lookup "timeout" props = Some t ->
  Value.isNaN (VNum (Value.Number t)) = true ->
  selected (VObj props) = t.
Proof.
  intros Hl Hn. unfold selected, has_timeout, read. cbn [Value.truthy Lodash.isNumber Lodash.has Value.prop andb negb].
  rewrite Hl, Hn. reflexivity.
Qed.

(** The documented inputs never reach [selectEndpoint] with something
    present that is no number. *)
Lemma timing_input_selected (seconds : value) :
  timing_input seconds = true ->
  Support.hasValue (selected seconds) = true ->
  Value.isNaN (selected seconds) = false.
Proof.
  destruct seconds as [ | | b | n | s | props]; try discriminate.
  - intros _.
    rewrite selected_number, hasValue_number.
    destruct (Value.isNaN (VNum n)); [discriminate | reflexivity].
  - cbn [timing_input].
    destruct (Value.lookup "timeout" props) as [t | ] eqn:Hl; [ | discriminate].
    destruct (Value.isNaN (VNum (Value.Number t))) eqn:Hn.
    + rewrite (selected_timeout_not_numeric props t Hl Hn).
      destruct t as [ | | b | n | s | ps]; try discriminate.
      intros _. rewrite hasValue_number.
        destruct (Value.isNaN (VNum n)); [discriminate | reflexivity].
    + rewrite (selected_timeout props t Hl Hn), hasValue_number. intros _.
      destruct (Value.isNaN (VNum (JS.div (Value.parseFloat t) (JS.of_Z 1000))));
        [discriminate | reflexivity].
Qed.

(** C1, as stated, fails: a candidate that is present and does not convert
    to a number is not treated as "never restore".  For the text [abc]
    [isNaN] holds, [selectEndpoint] assigns nothing, and [background]
    throws the invalid-argument error instead of sending the home
    request. *)
Lemma background_text_is_rejected :
  candidate (VStr "abc") = VStr "abc"
  /\ Value.isNaN (candidate (VStr "abc")) = true
  /\ background (VStr "abc") = invalidArgument (VStr "abc")
  /\ background (VStr "abc") <> restoreHome.
Proof. repeat split. discriminate. Qed.

(** C1 (amended).  When the value handed to [selectEndpoint] is absent
    ([undefined], [null] or NaN), or converts to a number and does not read
    as a number that is at least 0, [background] sends the home request
    [/wda/homescreen] with empty parameters and throws nothing; so it does
    for a Number input that is NaN or negative, for a missing input and for
    an options object whose [timeout] is [undefined] or [null].
    When that value is present and does not convert to a number,
    [background] throws the invalid-argument error. *)
Theorem background_restores_home_or_rejects (seconds : value) :
  (Support.hasValue (selected seconds) = false
   \/ (Value.isNaN (selected seconds) = false
       /\ JS.ge (Value.parseFloat (selected seconds)) (JS.of_Z 0) = false) ->
   background seconds = restoreHome)
  /\ (forall n : JS.number,
        seconds = VNum n ->
        JS.is_nan n = true \/ JS.lt n (JS.of_Z 0) = true ->
        background seconds = restoreHome)
  /\ (Lodash.isNil seconds = true -> background seconds = restoreHome)
  /\ (forall (props : list (string * value)) (t : value),
        seconds = VObj props ->
        Value.lookup "timeout" props = Some t ->
        Lodash.isNil t = true ->
        background seconds = restoreHome)
  /\ (Support.hasValue (selected seconds) = true
      /\ Value.isNaN (selected seconds) = true ->
      background seconds = invalidArgument seconds).
Proof.
  repeat split.
  - intros [Habsent | [Hnum Hneg]].
    + apply background_absent, Habsent.
    + destruct (Support.hasValue (selected seconds)) eqn:Hv.
      * apply background_negative; assumption.
      * apply background_absent, Hv.
  - intros n -> [Hnan | Hneg].
    + apply background_absent. rewrite selected_number.
      apply number_nan, Hnan.
    + destruct (number_negative n Hneg) as (Hv & Hn & Hd).
      apply background_negative; rewrite selected_number; assumption.
  - destruct seconds; try discriminate; reflexivity.
  - intros props t -> Hl Hnil. apply background_absent.
    destruct t; try discriminate Hnil.
    + rewrite (selected_timeout_not_numeric props VUndefined Hl eq_refl).
      reflexivity.
    + rewrite (selected_timeout props VNull Hl eq_refl). reflexivity.
  - intros [Hv Hn]. apply background_not_numeric; assumption.
Qed.

Lemma background_restores_home_or_rejects_witness :
  background (VNum (JS.of_Z (-2))) = restoreHome
  /\ background (VObj [("timeout", VNull)]) = restoreHome
  /\ background VUndefined = restoreHome
  /\ background (VObj [("timeout", VStr "soon")])
     = invalidArgument (VObj [("timeout", VStr "soon")]).
Proof.
  split; [ | split; [ | split]].
  - apply (proj1 (background_restores_home_or_rejects (VNum (JS.of_Z (-2))))).
    right. split; reflexivity.
  - apply (proj1 (background_restores_home_or_rejects
                    (VObj [("timeout", VNull)]))).
    left. reflexivity.
  - apply (proj1 (proj2 (proj2 (background_restores_home_or_rejects VUndefined)))).
    reflexivity.
  - apply (proj2 (proj2 (proj2 (proj2 (background_restores_home_or_rejects
                                          (VObj [("timeout", VStr "soon")])))))).
    split; reflexivity.
Defined.

(** C2, as stated, fails: the candidate of [{timeout: 5000}] is 5000, which
    is a number and at least 0, and the duration sent is 5. *)
Lemma background_timeout_is_not_sent_as_it_is :
  candidate (VObj [("timeout", VNum (JS.of_Z 5000))]) = VNum (JS.of_Z 5000)
  /\ Value.Number (VNum (JS.of_Z 5000)) = JS.of_Z 5000
  /\ JS.ge (JS.of_Z 5000) (JS.of_Z 0) = true
  /\ background (VObj [("timeout", VNum (JS.of_Z 5000))])
     = deactivateWithDuration (JS.of_Z 5)
  /\ background (VObj [("timeout", VNum (JS.of_Z 5000))])
     <> deactivateWithDuration (JS.of_Z 5000).
Proof. repeat split. discriminate. Qed.

(** C2 (amended).  When the value handed to [selectEndpoint] is present,
    converts to a number and reads as a number that is at least 0,
    [background] sends [/wda/deactivateApp] with exactly that number as
    [duration].  For a Number input that is at least 0 the duration is the
    input itself (a zero is sent as [+0]); for an options object whose
    [timeout] is a Number that is at least 0 it is the timeout divided by
    1000. *)
Theorem background_sends_duration (seconds : value) :
  (Support.hasValue (selected seconds) = true ->
   Value.isNaN (selected seconds) = false ->
   JS.ge (Value.parseFloat (selected seconds)) (JS.of_Z 0) = true ->
   background seconds
   = deactivateWithDuration (Value.parseFloat (selected seconds)))
  /\ (forall n : JS.number,
        seconds = VNum n ->
        JS.ge n (JS.of_Z 0) = true ->
        background seconds = deactivateWithDuration (JS.reread n))
  /\ (forall (props : list (string * value)) (n : JS.number),
        seconds = VObj props ->
        Value.lookup "timeout" props = Some (VNum n) ->
        JS.ge n (JS.of_Z 0) = true ->
        background seconds
        = deactivateWithDuration
            (JS.reread (JS.div (JS.reread n) (JS.of_Z 1000)))).
Proof.
  split; [ | split].
  - apply background_nonnegative.
  - intros n -> Hge.
    destruct (number_nonnegative n Hge) as (Hv & Hn & Hd).
    rewrite background_nonnegative; rewrite selected_number; auto.
  - intros props n -> Hl Hge.
    destruct (number_nonnegative n Hge) as (_ & Hn & _).
    pose proof (selected_timeout props (VNum n) Hl Hn) as Hsel.
    cbn [Value.parseFloat] in Hsel.
    destruct (number_nonnegative _ (div_nonnegative n Hge)) as (Hv' & Hn' & Hd').
    rewrite background_nonnegative; rewrite Hsel; auto.
Qed.

Lemma background_sends_duration_witness :
  background (VStr "3") = deactivateWithDuration (JS.of_Z 3)
  /\ background (VNum (JS.of_Z 3)) = deactivateWithDuration (JS.of_Z 3)
  /\ background (VObj [("timeout", VNum (JS.of_Z 1500))])
     = deactivateWithDuration (JS.div (JS.of_Z 3) (JS.of_Z 2)).
Proof.
  split; [ | split].
  - apply (proj1 (background_sends_duration (VStr "3"))); reflexivity.
  - apply (proj1 (proj2 (background_sends_duration (VNum (JS.of_Z 3))))
             (JS.of_Z 3)); reflexivity.
  - apply (proj2 (proj2 (background_sends_duration
                           (VObj [("timeout", VNum (JS.of_Z 1500))])))
             [("timeout", VNum (JS.of_Z 1500))] (JS.of_Z 1500));
      reflexivity.
Defined.

(** C3, as stated, fails: an options object without a [timeout] is handed
    to [selectEndpoint] as it is, is present and is no number, and
    [background] throws the invalid-argument error. *)
Lemma background_empty_options_rejected :
  Lodash.has (VObj []) "timeout" = false
  /\ background (VObj []) = invalidArgument (VObj []).
Proof. split; reflexivity. Qed.

(** C3 (amended).  [background] throws the invalid-argument error exactly
    when the value handed to [selectEndpoint] is present and does not
    convert to a number.  For the documented inputs (nothing, a Number, an
    options object whose [timeout] is [undefined], [null] or a Number) that
    never happens: one of the two requests is sent. *)
Theorem background_rejects_exactly (seconds : value) :
  (background seconds = invalidArgument seconds
   <-> Support.hasValue (selected seconds) = true
       /\ Value.isNaN (selected seconds) = true)
  /\ (timing_input seconds = true ->
      background seconds = restoreHome
      \/ exists duration : JS.number,
           background seconds = deactivateWithDuration duration).
Proof.
  assert (Hcases :
    (Support.hasValue (selected seconds) = true
     /\ Value.isNaN (selected seconds) = true
     /\ background seconds = invalidArgument seconds)
    \/ background seconds = restoreHome
    \/ background seconds
       = deactivateWithDuration (Value.parseFloat (selected seconds))).
  { rewrite background_dispatch.
    destruct (selectEndpoint_cases (selected seconds))
      as [(Hv & Hn & ->) | [-> | ->]]; auto. }
  split; [split | ].
  - intros Hb. destruct Hcases as [(Hv & Hn & _) | [Hh | Hd]]; auto.
    + rewrite Hh in Hb. discriminate Hb.
    + rewrite Hd in Hb. discriminate Hb.
  - intros [Hv Hn]. apply background_not_numeric; assumption.
  - intros Hin. destruct Hcases as [(Hv & Hn & _) | [Hh | Hd]]; eauto.
    rewrite (timing_input_selected seconds Hin Hv) in Hn. discriminate Hn.
Qed.

Lemma background_rejects_exactly_witness :
  background (VObj [("timeout", VNum (JS.of_Z (-2)))]) = restoreHome
  \/ exists duration : JS.number,
       background (VObj [("timeout", VNum (JS.of_Z (-2)))])
       = deactivateWithDuration duration.
Proof.
  apply (proj2 (background_rejects_exactly
                  (VObj [("timeout", VNum (JS.of_Z (-2)))]))).
  reflexivity.
Defined.

(** C9, as stated, fails: [null] converts to the number 0 and [true] to 1,
    but it is what [parseFloat] reads in the text of the timeout that is
    divided by 1000, and that is NaN for both: [background] sends the
    home request, where selecting on 0 / 1000 or 1 / 1000 would send a
    duration. *)
Lemma background_null_timeout_is_not_zero :
  Value.isNaN (VNum (Value.Number VNull)) = false
  /\ JS.div (Value.Number VNull) (JS.of_Z 1000) = JS.of_Z 0
  /\ background (VNum (JS.div (Value.Number VNull) (JS.of_Z 1000)))
     = deactivateWithDuration (JS.of_Z 0)
  /\ background (VObj [("timeout", VNull)]) = restoreHome
  /\ background (VObj [("timeout", VNull)])
     <> deactivateWithDuration (JS.div (Value.Number VNull) (JS.of_Z 1000))
  /\ Value.isNaN (VNum (Value.Number (VBool true))) = false
  /\ background (VNum (JS.div (Value.Number (VBool true)) (JS.of_Z 1000)))
     = deactivateWithDuration (JS.div (JS.of_Z 1) (JS.of_Z 1000))
  /\ background (VObj [("timeout", VBool true)]) = restoreHome.
Proof. repeat split. discriminate. Qed.

(** C9 (amended).  An options object whose [timeout] converts to a number
    has the number [parseFloat] reads in the text of that timeout divided
    by 1000 before the endpoint is selected.  That is the timeout itself,
    taken as milliseconds, whenever [parseFloat] reads what the timeout
    converts to, as for every Number: [background({timeout: 5000})] sends
    the duration 5, and [background(5000)] the duration 5000.  When
    [parseFloat] reads no number, as for [null], the home request is
    sent. *)
Theorem background_timeout_in_milliseconds
    (props : list (string * value)) (t : value) :
  Value.lookup "timeout" props = Some t ->
  Value.isNaN (VNum (Value.Number t)) = false ->
  background (VObj props)
  = dispatch (VObj props)
      (selectEndpoint (VNum (JS.div (Value.parseFloat t) (JS.of_Z 1000)))
         initial)
  /\ (Value.parseFloat t = Value.Number t ->
      selected (VObj props)
      = VNum (JS.div (Value.Number t) (JS.of_Z 1000)))
  /\ (forall n : JS.number,
        t = VNum n ->
        selected (VObj props) = VNum (JS.div (JS.reread n) (JS.of_Z 1000)))
  /\ (JS.is_nan (Value.parseFloat t) = true ->
      background (VObj props) = restoreHome)
  /\ background (VObj [("timeout", VNum (JS.of_Z 5000))])
     = deactivateWithDuration (JS.of_Z 5)
  /\ background (VNum (JS.of_Z 5000)) = deactivateWithDuration (JS.of_Z 5000)
  /\ JS.of_Z 5 <> JS.of_Z 5000.
Proof.
  intros Hl Hn.
  pose proof (selected_timeout props t Hl Hn) as Hsel.
  split; [ | split; [ | split; [ | split; [ | repeat split]]]].
  - rewrite background_dispatch, Hsel. reflexivity.
  - intros Hsame. rewrite Hsel, Hsame. reflexivity.
  - intros n ->. rewrite Hsel. reflexivity.
  - intros Hnan. apply background_absent. rewrite Hsel.
    destruct (Value.parseFloat t); try discriminate Hnan. reflexivity.
  - discriminate.
Qed.

Lemma background_timeout_in_milliseconds_witness :
  background (VObj [("timeout", VStr "2000"); ("unit", VStr "ms")])
  = deactivateWithDuration (JS.of_Z 2)
  /\ selected (VObj [("timeout", VNum (JS.of_Z 250))])
     = VNum (JS.div (JS.of_Z 1) (JS.of_Z 4))
  /\ background (VObj [("timeout", VStr EmptyString)]) = restoreHome.
Proof.
  split; [ | split].
  - apply (proj1 (background_timeout_in_milliseconds
                    [("timeout", VStr "2000"); ("unit", VStr "ms")]
                    (VStr "2000") eq_refl eq_refl)).
  - apply (proj1 (proj2 (background_timeout_in_milliseconds
                           [("timeout", VNum (JS.of_Z 250))]
                           (VNum (JS.of_Z 250)) eq_refl eq_refl))).
    reflexivity.
  - apply (proj1 (proj2 (proj2 (proj2 (background_timeout_in_milliseconds
                                         [("timeout", VStr EmptyString)]
                                         (VStr EmptyString)
                                         eq_refl eq_refl))))).
    reflexivity.
Defined.

End BackgroundClaims.

(** ** The device time *)
Section DeviceTimeClaims.

Context {M : Moment.lib} {S : Type} (h : handler S).

Lemma default_default (format d : value) :
  default (default format d) d = default format d.
Proof. destruct format; try reflexivity. destruct d; reflexivity. Qed.

Lemma getDeviceTime_default (format : value) :
  getDeviceTime (default format (VStr MOMENT_FORMAT_ISO8601))
  = getDeviceTime format.
Proof. unfold getDeviceTime. rewrite default_default. reflexivity. Qed.

Lemma twelve_hours_in_minutes :
  JS.mul (JS.of_Z 12) (JS.of_Z 60) = JS.of_Z (12 * 60).
Proof. reflexivity. Qed.

Lemma twelve_hours_in_seconds :
  JS.mul (JS.mul (JS.of_Z 12) (JS.of_Z 60)) (JS.of_Z 60)
  = JS.of_Z (12 * 60 * 60).
Proof. reflexivity. Qed.

(** On a physical device the command formats the instant the resolution
    order picks, unless the first rule is handed [null]. *)
Lemma getDeviceTime_physical
    (real udid timestamp utcOffset timeZone format : value) (s : S) :
  answers h isRealDevice real ->
  Value.truthy real = true ->
  answers h (opts "udid") udid ->
  answers h (utilities_getDeviceTime udid)
    (reading timestamp utcOffset timeZone) ->
  (Lodash.isNil utcOffset = true ->
   JS.le (Value.Math_abs utcOffset) (JS.of_Z (12 * 60)) = false) ->
  result (run h (getDeviceTime format) s)
  = inl (VStr (Moment.format
                 (resolveOffset (utc_instant timestamp) utcOffset timeZone)
                 (default format (VStr MOMENT_FORMAT_ISO8601)))).
Proof.
  intros Hreal Htruthy Hudid Hclock Hnil.
  unfold getDeviceTime. cbn [bind log await].
  rewrite result_log, (result_call h _ _ _ _ Hreal), Htruthy.
  cbn [negb bind].
  rewrite (result_call h _ _ _ _ Hudid), (result_call h _ _ _ _ Hclock).
  cbn [bind reading get Value.prop Value.lookup String.eqb Ascii.eqb Bool.eqb].
  rewrite result_log, twelve_hours_in_seconds, twelve_hours_in_minutes.
  unfold resolveOffset, utc_instant, format_at.
  destruct (JS.le (Value.Math_abs utcOffset) (JS.of_Z (12 * 60))).
  - destruct (Lodash.isNil utcOffset); [ | reflexivity].
    discriminate (Hnil eq_refl).
  - destruct (Lodash.includes timeZone "/"); [reflexivity | ].
    destruct (JS.le (Value.Math_abs timeZone) (JS.of_Z (12 * 60 * 60)));
      reflexivity.
Qed.

Lemma or_else_present (a : value) (n : JS.number) :
  Lodash.isNil (or_else a (VNum n)) = false.
Proof.
  unfold or_else. destruct (Value.truthy a) eqn:Ha; [ | reflexivity].
  destruct a; try reflexivity; discriminate Ha.
Qed.

Lemma minutes_of_sized (n : JS.number) :
  Moment.minute_sized n = true -> Moment.minutes_of n = n.
Proof.
  unfold Moment.minute_sized, Moment.minutes_of.
  destruct (JS.lt (JS.Math_abs n) (JS.of_Z 16)); [ | reflexivity].
  cbn [negb orb]. destruct n as [sg | sg | | sg m e]; try discriminate.
  intros _. destruct sg; reflexivity.
Qed.

(** On a simulator an output of [date] that does not parse is returned
    trimmed; the one that parses is formatted at its own offset. *)
Lemma getDeviceTime_simulated (real out format : value) (output : string) (s : S) :
  answers h isRealDevice real ->
  Value.truthy real = false ->
  answers h date_call out ->
  Value.prop out "stdout" = Some (VStr output) ->
  result (run h (getDeviceTime format) s)
  = inl (VStr
           (if Moment.isValid (Moment.parse_utc (JS.trim output) inputFormat)
            then
              Moment.format
                (Moment.utcOffset
                   (Moment.parse_utc (JS.trim output) inputFormat)
                   (or_else
                      (Moment._tzm (Moment.parse_utc (JS.trim output) inputFormat))
                      (VNum (JS.of_Z 0))))
                (default format (VStr MOMENT_FORMAT_ISO8601))
            else JS.trim output)).
Proof.
  intros Hreal Hfalsy Hdate Hout.
  unfold getDeviceTime. cbn [bind log await].
  rewrite result_log, (result_call h _ _ _ _ Hreal), Hfalsy.
  cbn [negb bind]. rewrite result_log.
  fold date_call. rewrite (result_call h _ _ _ _ Hdate).
  unfold get. rewrite Hout. cbn [bind trim_of]. rewrite result_log.
  fold inputFormat. unfold format_at. rewrite or_else_present.
  destruct (Moment.isValid (Moment.parse_utc (JS.trim output) inputFormat));
    reflexivity.
Qed.

(** X24.  On a physical device [getDeviceTime] resolves the
    offset in this order.  When the magnitude of the reported offset, a
    Number, is at most 12 * 60, the offset is handed to [utcOffset] of the
    library, and the instant is formatted at that many minutes when the
    magnitude is 16 or more or the offset is zero.  Else, when the zone
    hint holds a slash, the hint is applied as a zone.  Else, when the
    magnitude of the hint is at most 12 * 60 * 60, the hint divided by 60
    is handed to [utcOffset], and the instant is formatted at that many
    minutes when their magnitude is 16 or more or they are zero.  Else the
    bare UTC instant is formatted.  With the offset 900, or -900, and the
    hint [Europe/Berlin] the zone is applied. *)
Theorem getDeviceTime_offset_cascade {O : Moment.offsets M}
    (real udid timestamp utcOffset timeZone format : value) (s : S) :
  answers h isRealDevice real ->
  Value.truthy real = true ->
  answers h (opts "udid") udid ->
  answers h (utilities_getDeviceTime udid)
    (reading timestamp utcOffset timeZone) ->
  (forall n : JS.number,
     utcOffset = VNum n ->
     JS.le (JS.Math_abs n) (JS.of_Z (12 * 60)) = true ->
     Moment.minute_sized n = true ->
     result (run h (getDeviceTime format) s)
     = formatted (Moment.at_minutes (utc_instant timestamp) n) format)
  /\ (JS.le (Value.Math_abs utcOffset) (JS.of_Z (12 * 60)) = false ->
      Lodash.includes timeZone "/" = true ->
      result (run h (getDeviceTime format) s)
      = formatted (Moment.tz (utc_instant timestamp) timeZone) format)
  /\ (JS.le (Value.Math_abs utcOffset) (JS.of_Z (12 * 60)) = false ->
      Lodash.includes timeZone "/" = false ->
      JS.le (Value.Math_abs timeZone) (JS.of_Z (12 * 60 * 60)) = true ->
      Moment.minute_sized (Value.over timeZone (VNum (JS.of_Z 60))) = true ->
      result (run h (getDeviceTime format) s)
      = formatted
          (Moment.at_minutes (utc_instant timestamp)
             (Value.over timeZone (VNum (JS.of_Z 60))))
          format)
  /\ (JS.le (Value.Math_abs utcOffset) (JS.of_Z (12 * 60)) = false ->
      Lodash.includes timeZone "/" = false ->
      JS.le (Value.Math_abs timeZone) (JS.of_Z (12 * 60 * 60)) = false ->
      result (run h (getDeviceTime format) s)
      = formatted (utc_instant timestamp) format)
  /\ (utcOffset = VNum (JS.of_Z 120) \/ utcOffset = VNum (JS.of_Z (-300))
      \/ utcOffset = VNum (JS.of_Z 720) \/ utcOffset = VNum (JS.of_Z 0) ->
      result (run h (getDeviceTime format) s)
      = formatted
          (Moment.at_minutes (utc_instant timestamp) (Value.Number utcOffset))
          format)
  /\ (utcOffset = VNum (JS.of_Z 900) \/ utcOffset = VNum (JS.of_Z (-900))
      \/ utcOffset = VNum (JS.of_Z 721) ->
      (timeZone = VStr "Europe/Berlin" ->
       result (run h (getDeviceTime format) s)
       = formatted (Moment.tz (utc_instant timestamp) (VStr "Europe/Berlin"))
           format)
      /\ (timeZone = VNum (JS.of_Z (-3600)) ->
          result (run h (getDeviceTime format) s)
          = formatted
              (Moment.at_minutes (utc_instant timestamp) (JS.of_Z (-60)))
              format)
      /\ (timeZone = VStr "7200" \/ timeZone = VNum (JS.of_Z 7200) ->
          result (run h (getDeviceTime format) s)
          = formatted
              (Moment.at_minutes (utc_instant timestamp) (JS.of_Z 120))
              format)
      /\ (timeZone = VNum (JS.of_Z 43200) ->
          result (run h (getDeviceTime format) s)
          = formatted
              (Moment.at_minutes (utc_instant timestamp) (JS.of_Z 720))
              format)
      /\ (timeZone = VNum (JS.of_Z 43201)
          \/ timeZone = VNum (JS.of_Z (-50000)) \/ timeZone = VStr "UTC" ->
          result (run h (getDeviceTime format) s)
          = formatted (utc_instant timestamp) format)).
Proof.
  intros Hreal Htruthy Hudid Hclock.
  pose proof (getDeviceTime_physical real udid timestamp utcOffset timeZone
                format s Hreal Htruthy Hudid Hclock) as Hrun.
  unfold formatted.
  assert (Ha : forall n : JS.number,
             utcOffset = VNum n ->
             JS.le (JS.Math_abs n) (JS.of_Z (12 * 60)) = true ->
             Moment.minute_sized n = true ->
             result (run h (getDeviceTime format) s)
             = inl (VStr (Moment.format
                            (Moment.at_minutes (utc_instant timestamp) n)
                            (default format (VStr MOMENT_FORMAT_ISO8601))))).
  { intros n Hn Hle Hsized. rewrite Hrun by (rewrite Hn; discriminate).
    unfold resolveOffset. rewrite Hn in *.
    change (Value.Math_abs (VNum n)) with (JS.Math_abs n). rewrite Hle.
    rewrite Moment.utcOffset_number, (minutes_of_sized n Hsized).
    reflexivity. }
  assert (Hb : JS.le (Value.Math_abs utcOffset) (JS.of_Z (12 * 60)) = false ->
               Lodash.includes timeZone "/" = true ->
               result (run h (getDeviceTime format) s)
               = inl (VStr (Moment.format
                              (Moment.tz (utc_instant timestamp) timeZone)
                              (default format (VStr MOMENT_FORMAT_ISO8601))))).
  { intros Hle Hslash. rewrite Hrun by (intros _; exact Hle).
    unfold resolveOffset. rewrite Hle, Hslash. reflexivity. }
  assert (Hc : JS.le (Value.Math_abs utcOffset) (JS.of_Z (12 * 60)) = false ->
               Lodash.includes timeZone "/" = false ->
               JS.le (Value.Math_abs timeZone) (JS.of_Z (12 * 60 * 60)) = true ->
               Moment.minute_sized (Value.over timeZone (VNum (JS.of_Z 60)))
               = true ->
               result (run h (getDeviceTime format) s)
               = inl (VStr (Moment.format
                              (Moment.at_minutes (utc_instant timestamp)
                                 (Value.over timeZone (VNum (JS.of_Z 60))))
                              (default format (VStr MOMENT_FORMAT_ISO8601))))).
  { intros Hle Hslash Hsec Hsized. rewrite Hrun by (intros _; exact Hle).
    unfold resolveOffset. rewrite Hle, Hslash, Hsec.
    rewrite Moment.utcOffset_number, (minutes_of_sized _ Hsized).
    reflexivity. }
  assert (Hd : JS.le (Value.Math_abs utcOffset) (JS.of_Z (12 * 60)) = false ->
               Lodash.includes timeZone "/" = false ->
               JS.le (Value.Math_abs timeZone) (JS.of_Z (12 * 60 * 60)) = false ->
               result (run h (getDeviceTime format) s)
               = inl (VStr (Moment.format (utc_instant timestamp)
                              (default format (VStr MOMENT_FORMAT_ISO8601))))).
  { intros Hle Hslash Hsec. rewrite Hrun by (intros _; exact Hle).
    unfold resolveOffset. rewrite Hle, Hslash, Hsec. reflexivity. }
  split; [exact Ha | ]. split; [exact Hb | ]. split; [exact Hc | ].
  split; [exact Hd | ]. split.
  - intros [Hn | [Hn | [Hn | Hn]]]; rewrite Hn;
      apply (Ha _ Hn); reflexivity.
  - intros Hfar.
    assert (Hle : JS.le (Value.Math_abs utcOffset) (JS.of_Z (12 * 60)) = false)
      by (destruct Hfar as [-> | [-> | ->]]; reflexivity).
    split; [ | split; [ | split; [ | split]]].
    + intros ->. apply (Hb Hle). reflexivity.
    + intros ->. apply (Hc Hle); reflexivity.
    + intros [-> | ->]; apply (Hc Hle); reflexivity.
    + intros ->. apply (Hc Hle); reflexivity.
    + intros [-> | [-> | ->]]; apply (Hd Hle); reflexivity.
Qed.

(** C6.  On a simulator, when the trimmed output of the [date] command does
    not parse against the input pattern, [getDeviceTime] returns that
    trimmed output as it is and does not throw. *)
Theorem getDeviceTime_unparsable_output
    (real out format : value) (output : string) (s : S) :
  answers h isRealDevice real ->
  Value.truthy real = false ->
  answers h date_call out ->
  Value.prop out "stdout" = Some (VStr output) ->
  Moment.isValid (Moment.parse_utc (JS.trim output) inputFormat) = false ->
  result (run h (getDeviceTime format) s) = inl (VStr (JS.trim output)).
Proof.
  intros Hreal Hfalsy Hdate Hout Hinvalid.
  rewrite (getDeviceTime_simulated real out format output s
             Hreal Hfalsy Hdate Hout), Hinvalid.
  reflexivity.
Qed.

(** C10.  [mobileGetDeviceTime] is [getDeviceTime]: whatever the pattern
    and the collaborators, the two make the same calls, write the same log
    and end with the same result; with the pattern left out both use
    [YYYY-MM-DDTHH:mm:ssZ]. *)
Theorem mobileGetDeviceTime_is_getDeviceTime (format : value) (s : S) :
  run h (mobileGetDeviceTime format) s = run h (getDeviceTime format) s
  /\ run h (mobileGetDeviceTime VUndefined) s
     = run h (getDeviceTime (VStr MOMENT_FORMAT_ISO8601)) s
  /\ run h (getDeviceTime VUndefined) s
     = run h (getDeviceTime (VStr MOMENT_FORMAT_ISO8601)) s.
Proof.
  unfold mobileGetDeviceTime.
  rewrite !run_bind_ret, getDeviceTime_default.
  repeat split.
Qed.

End DeviceTimeClaims.


Lemma getDeviceTime_offset_cascade_witness :
  result (run (Sample.collaborators
                 (Clock.device (VNum (JS.of_Z 120)) (VStr "Europe/Berlin")))
            (getDeviceTime (M := Clock.moment) VUndefined) O)
  = inl (VStr "unix 1700000000, utc, at 120 minutes as YYYY-MM-DDTHH:mm:ssZ")
  /\ result (run (Sample.collaborators
                    (Clock.device (VNum (JS.of_Z (-900)))
                       (VStr "Europe/Berlin")))
               (getDeviceTime (M := Clock.moment) VUndefined) O)
     = inl (VStr "unix 1700000000, utc, in Europe/Berlin as YYYY-MM-DDTHH:mm:ssZ")
  /\ result (run (Sample.collaborators
                    (Clock.device (VNum (JS.of_Z 900)) (VNum (JS.of_Z (-3600)))))
               (getDeviceTime (M := Clock.moment) VUndefined) O)
     = inl (VStr "unix 1700000000, utc, at -60 minutes as YYYY-MM-DDTHH:mm:ssZ")
  /\ result (run (Sample.collaborators
                    (Clock.device (VNum (JS.of_Z 900)) (VStr "UTC")))
               (getDeviceTime (M := Clock.moment) VUndefined) O)
     = inl (VStr "unix 1700000000, utc as YYYY-MM-DDTHH:mm:ssZ").
Proof.
  split; [ | split; [ | split]].
  - apply (proj1 (getDeviceTime_offset_cascade (M := Clock.moment)
                    (O := Clock.offsets)
                    (Sample.collaborators
                       (Clock.device (VNum (JS.of_Z 120))
                          (VStr "Europe/Berlin")))
                    (VBool true) (VStr "00008030-001C2D903C42802E")
                    (VNum (JS.of_Z 1700000000)) (VNum (JS.of_Z 120))
                    (VStr "Europe/Berlin") VUndefined O
                    (fun s => eq_refl) eq_refl (fun s => eq_refl)
                    (fun s => eq_refl))
             (JS.of_Z 120));
      reflexivity.
  - apply (proj1 (proj2 (getDeviceTime_offset_cascade (M := Clock.moment)
                           (O := Clock.offsets)
                           (Sample.collaborators
                              (Clock.device (VNum (JS.of_Z (-900)))
                                 (VStr "Europe/Berlin")))
                           (VBool true) (VStr "00008030-001C2D903C42802E")
                           (VNum (JS.of_Z 1700000000)) (VNum (JS.of_Z (-900)))
                           (VStr "Europe/Berlin") VUndefined O
                           (fun s => eq_refl) eq_refl (fun s => eq_refl)
                           (fun s => eq_refl))));
      reflexivity.
  - apply (proj1 (proj2 (proj2 (getDeviceTime_offset_cascade
                                  (M := Clock.moment) (O := Clock.offsets)
                                  (Sample.collaborators
                                     (Clock.device (VNum (JS.of_Z 900))
                                        (VNum (JS.of_Z (-3600)))))
                                  (VBool true)
                                  (VStr "00008030-001C2D903C42802E")
                                  (VNum (JS.of_Z 1700000000))
                                  (VNum (JS.of_Z 900))
                                  (VNum (JS.of_Z (-3600))) VUndefined O
                                  (fun s => eq_refl) eq_refl
                                  (fun s => eq_refl) (fun s => eq_refl)))));
      reflexivity.
  - apply (proj1 (proj2 (proj2 (proj2 (getDeviceTime_offset_cascade
                                         (M := Clock.moment)
                                         (O := Clock.offsets)
                                         (Sample.collaborators
                                            (Clock.device (VNum (JS.of_Z 900))
                                               (VStr "UTC")))
                                         (VBool true)
                                         (VStr "00008030-001C2D903C42802E")
                                         (VNum (JS.of_Z 1700000000))
                                         (VNum (JS.of_Z 900))
                                         (VStr "UTC") VUndefined O
                                         (fun s => eq_refl) eq_refl
                                         (fun s => eq_refl)
                                         (fun s => eq_refl))))));
      reflexivity.
Defined.

Lemma getDeviceTime_unparsable_output_witness :
  result (run (Sample.collaborators Sample.simulator)
            (getDeviceTime (M := Sample.moment) VUndefined) O)
  = inl (VStr "date: illegal time format").
Proof.
  apply (getDeviceTime_unparsable_output (M := Sample.moment)
           (Sample.collaborators Sample.simulator)
           (VBool false)
           (VObj [("stdout", VStr (Sample.date_output Sample.simulator))])
           VUndefined (Sample.date_output Sample.simulator) O).
  - intros s. reflexivity.
  - reflexivity.
  - intros s. reflexivity.
  - reflexivity.
  - reflexivity.
Defined.

(** ** Window and viewport geometry *)
Section GeometryClaims.

Context {S : Type} (h : handler S).

Lemma getWindowSize_result (web size : value) (s : S) :
  answers h isWebContext web ->
  answers h (window_size_call web) size ->
  result (run h (getWindowSize VUndefined) s) = inl size.
Proof.
  intros Hweb Hsize. unfold getWindowSize.
  cbn [default is_string negb bind await].
  replace ("current" =? "current")%string with true by reflexivity.
  cbn [negb]. rewrite (result_call h _ _ _ _ Hweb).
  unfold window_size_call in Hsize.
  destruct (negb (Value.truthy web)).
  - unfold getWindowSizeNative. cbn [bind await].
    rewrite (result_call h _ _ _ _ Hsize). reflexivity.
  - unfold getWindowSizeWeb. cbn [bind await].
    rewrite (result_call h _ _ _ _ Hsize). reflexivity.
Qed.

Lemma getWindowRect_result (web size width height : value) (s : S) :
  answers h isWebContext web ->
  answers h (window_size_call web) size ->
  Value.prop size "width" = Some width ->
  Value.prop size "height" = Some height ->
  result (run h getWindowRect s) = inl (windowRect width height).
Proof.
  intros Hweb Hsize Hw Hh. unfold getWindowRect.
  rewrite (result_bind h _ _ size s (getWindowSize_result web size s Hweb Hsize)).
  unfold get. rewrite Hw, Hh. reflexivity.
Qed.

Lemma getDevicePixelRatio_result (screen scale : value) (s : S) :
  answers h screen_call screen ->
  Value.prop screen "scale" = Some scale ->
  result (run h getDevicePixelRatio s) = inl scale.
Proof.
  intros Hscreen Hscale. unfold getDevicePixelRatio, getScreenInfo.
  cbn [bind await]. fold screen_call.
  rewrite (result_call h _ _ _ _ Hscreen). unfold get. rewrite Hscale.
  reflexivity.
Qed.

Lemma getStatusBarHeight_result (screen bar height : value) (s : S) :
  answers h screen_call screen ->
  Value.prop screen "statusBarSize" = Some bar ->
  Value.prop bar "height" = Some height ->
  result (run h getStatusBarHeight s) = inl height.
Proof.
  intros Hscreen Hbar Hheight. unfold getStatusBarHeight, getScreenInfo.
  cbn [bind await]. fold screen_call.
  rewrite (result_call h _ _ _ _ Hscreen). unfold get. rewrite Hbar.
  cbn [bind]. rewrite Hheight. reflexivity.
Qed.

(** C5.  With the scale and the status bar height the screen information
    gives and the window size the window collaborator gives,
    [getViewportRect] returns the viewport of the specification; for the
    scale 2, the status bar height 20 and the window 400 x 800 that is
    [{left: 0, top: 40, width: 800, height: 1560}].  The top is rounded:
    a status bar of 20.5 at scale 3 gives the top 62 (from 61.5) and the
    height 2400 - 62, one of 20.25 at scale 1 gives the top 20, one of 2 at
    scale 1.25 gives the top 3 (from 2.5), and the width is not rounded: a
    window 100.5 wide at scale 1.5 is 150.75 wide. *)
Theorem getViewportRect_result
    (screen scale bar statusBarHeight web size width height : value) (s : S) :
  answers h screen_call screen ->
  Value.prop screen "scale" = Some scale ->
  Value.prop screen "statusBarSize" = Some bar ->
  Value.prop bar "height" = Some statusBarHeight ->
  answers h isWebContext web ->
  answers h (window_size_call web) size ->
  Value.prop size "width" = Some width ->
  Value.prop size "height" = Some height ->
  result (run h getViewportRect s)
  = inl (viewportRect scale statusBarHeight width height)
  /\ viewportRect (VNum (JS.of_Z 2)) (VNum (JS.of_Z 20))
       (VNum (JS.of_Z 400)) (VNum (JS.of_Z 800))
     = VObj [("left", VNum (JS.of_Z 0)); ("top", VNum (JS.of_Z 40));
             ("width", VNum (JS.of_Z 800)); ("height", VNum (JS.of_Z 1560))]
  /\ viewportRect (VNum (JS.of_Z 3)) (VNum (JS.div (JS.of_Z 41) (JS.of_Z 2)))
       (VNum (JS.of_Z 400)) (VNum (JS.of_Z 800))
     = VObj [("left", VNum (JS.of_Z 0)); ("top", VNum (JS.of_Z 62));
             ("width", VNum (JS.of_Z 1200)); ("height", VNum (JS.of_Z 2338))]
  /\ viewportRect (VNum (JS.of_Z 1)) (VNum (JS.div (JS.of_Z 81) (JS.of_Z 4)))
       (VNum (JS.of_Z 400)) (VNum (JS.of_Z 800))
     = VObj [("left", VNum (JS.of_Z 0)); ("top", VNum (JS.of_Z 20));
             ("width", VNum (JS.of_Z 400)); ("height", VNum (JS.of_Z 780))]
  /\ viewportRect (VNum (JS.div (JS.of_Z 5) (JS.of_Z 4))) (VNum (JS.of_Z 2))
       (VNum (JS.of_Z 400)) (VNum (JS.of_Z 800))
     = VObj [("left", VNum (JS.of_Z 0)); ("top", VNum (JS.of_Z 3));
             ("width", VNum (JS.of_Z 500)); ("height", VNum (JS.of_Z 997))]
  /\ viewportRect (VNum (JS.div (JS.of_Z 3) (JS.of_Z 2))) (VNum (JS.of_Z 20))
       (VNum (JS.div (JS.of_Z 201) (JS.of_Z 2))) (VNum (JS.of_Z 800))
     = VObj [("left", VNum (JS.of_Z 0)); ("top", VNum (JS.of_Z 30));
             ("width", VNum (JS.div (JS.of_Z 603) (JS.of_Z 4)));
             ("height", VNum (JS.of_Z 1170))].
Proof.
  intros Hscreen Hscale Hbar Hsb Hweb Hsize Hw Hh.
  split; [ | repeat split].
  unfold getViewportRect.
  rewrite (result_bind h _ _ scale s
             (getDevicePixelRatio_result screen scale s Hscreen Hscale)).
  rewrite (result_bind h _ _ statusBarHeight _
             (getStatusBarHeight_result screen bar statusBarHeight _
                Hscreen Hbar Hsb)).
  rewrite (result_bind h _ _ size _
             (getWindowSize_result web size _ Hweb Hsize)).
  unfold get. rewrite Hw, Hh. reflexivity.
Qed.

(** C8.  While the window collaborator keeps answering with the same size,
    two calls of [getWindowRect] in a row return the same rectangle
    [{width, height, x: 0, y: 0}]. *)
Theorem getWindowRect_twice_same (web size width height : value) (s : S) :
  answers h isWebContext web ->
  answers h (window_size_call web) size ->
  Value.prop size "width" = Some width ->
  Value.prop size "height" = Some height ->
  result (run h getWindowRect_twice s)
  = inl (windowRect width height, windowRect width height).
Proof.
  intros Hweb Hsize Hw Hh. unfold getWindowRect_twice.
  rewrite (result_bind h _ _ (windowRect width height) s
             (getWindowRect_result web size width height s Hweb Hsize Hw Hh)).
  rewrite (result_bind h _ _ (windowRect width height) _
             (getWindowRect_result web size width height _ Hweb Hsize Hw Hh)).
  reflexivity.
Qed.

End GeometryClaims.

(** ** Argument validation *)
Section ValidationClaims.

Context {S : Type} (h : handler S).

(** C7.  [mobilePressButton] with an empty name, or with a duration that is
    given and is no Number, and [mobileSiriCommand] with an empty text end
    in an invalid-argument error with no collaborator called and the
    collaborators' state untouched. *)
Theorem validation_fails_before_any_call
    (name durationSeconds text : value) (s : S) :
  (Value.truthy name = false
   \/ (Lodash.isNil durationSeconds = false
       /\ Lodash.isNumber durationSeconds = false) ->
   exists m : message,
     mobilePressButton name durationSeconds = Throw (InvalidArgumentError m)
     /\ run h (mobilePressButton name durationSeconds) s
        = Outcome [] (inr (InvalidArgumentError m)) s)
  /\ (Value.truthy text = false ->
      exists m : message,
        mobileSiriCommand text = Throw (InvalidArgumentError m)
        /\ run h (mobileSiriCommand text) s
           = Outcome [] (inr (InvalidArgumentError m)) s)
  /\ Value.truthy (VStr EmptyString) = false.
Proof.
  split; [ | split; [ | reflexivity]].
  - intros Hbad. unfold mobilePressButton.
    destruct (Value.truthy name) eqn:Hname; cbn [negb].
    + destruct Hbad as [Hn | [Hnil Hnum]]; [discriminate Hn | ].
      rewrite Hnil, Hnum. cbn [negb andb]. eexists. split; reflexivity.
    + eexists. split; reflexivity.
  - intros Htext. unfold mobileSiriCommand. rewrite Htext. cbn [negb].
    eexists. split; reflexivity.
Qed.

End ValidationClaims.

Lemma getViewportRect_result_witness :
  result (run (Sample.collaborators Sample.phone) getViewportRect O)
  = inl (VObj [("left", VNum (JS.of_Z 0)); ("top", VNum (JS.of_Z 40));
               ("width", VNum (JS.of_Z 800)); ("height", VNum (JS.of_Z 1560))])
  /\ result (run (Sample.collaborators tall_phone) getViewportRect O)
     = inl (VObj [("left", VNum (JS.of_Z 0)); ("top", VNum (JS.of_Z 62));
                  ("width", VNum (JS.of_Z 1200));
                  ("height", VNum (JS.of_Z 2338))]).
Proof.
  split.
  - destruct (getViewportRect_result (Sample.collaborators Sample.phone)
                (Sample.screen Sample.phone) (VNum (JS.of_Z 2))
                (VObj [("width", VNum (JS.of_Z 400));
                       ("height", VNum (JS.of_Z 20))])
                (VNum (JS.of_Z 20)) (VBool false)
                (Sample.window Sample.phone)
                (VNum (JS.of_Z 400)) (VNum (JS.of_Z 800)) O)
      as (Hrun & Hrect & _).
    + intros s. reflexivity.
    + reflexivity.
    + reflexivity.
    + reflexivity.
    + intros s. reflexivity.
    + intros s. reflexivity.
    + reflexivity.
    + reflexivity.
    + rewrite Hrun, Hrect. reflexivity.
  - destruct (getViewportRect_result (Sample.collaborators tall_phone)
                (Sample.screen tall_phone) (VNum (JS.of_Z 3))
                (VObj [("width", VNum (JS.of_Z 400));
                       ("height", VNum (JS.div (JS.of_Z 41) (JS.of_Z 2)))])
                (VNum (JS.div (JS.of_Z 41) (JS.of_Z 2))) (VBool false)
                (Sample.window tall_phone)
                (VNum (JS.of_Z 400)) (VNum (JS.of_Z 800)) O)
      as (Hrun & _ & Hrect & _).
    + intros s. reflexivity.
    + reflexivity.
    + reflexivity.
    + reflexivity.
    + intros s. reflexivity.
    + intros s. reflexivity.
    + reflexivity.
    + reflexivity.
    + rewrite Hrun, Hrect. reflexivity.
Defined.

Lemma getWindowRect_twice_same_witness :
  result (run (Sample.collaborators Sample.phone) getWindowRect_twice O)
  = inl (windowRect (VNum (JS.of_Z 400)) (VNum (JS.of_Z 800)),
         windowRect (VNum (JS.of_Z 400)) (VNum (JS.of_Z 800))).
Proof.
  apply (getWindowRect_twice_same (Sample.collaborators Sample.phone)
           (VBool false) (Sample.window Sample.phone)).
  - intros s. reflexivity.
  - intros s. reflexivity.
  - reflexivity.
  - reflexivity.
Defined.

Lemma validation_fails_before_any_call_witness :
  (exists m : message,
     mobilePressButton (VStr EmptyString) VUndefined
     = Throw (InvalidArgumentError m)
     /\ run (Sample.collaborators Sample.phone)
          (mobilePressButton (VStr EmptyString) VUndefined) O
        = Outcome [] (inr (InvalidArgumentError m)) O)
  /\ (exists m : message,
        mobilePressButton (VStr "home") (VStr "2")
        = Throw (InvalidArgumentError m)
        /\ run (Sample.collaborators Sample.phone)
             (mobilePressButton (VStr "home") (VStr "2")) O
           = Outcome [] (inr (InvalidArgumentError m)) O)
  /\ (exists m : message,
        mobileSiriCommand (VStr EmptyString) = Throw (InvalidArgumentError m)
        /\ run (Sample.collaborators Sample.phone)
             (mobileSiriCommand (VStr EmptyString)) O
           = Outcome [] (inr (InvalidArgumentError m)) O).
Proof.
  split; [ | split].
  - apply (proj1 (validation_fails_before_any_call
                    (Sample.collaborators Sample.phone)
                    (VStr EmptyString) VUndefined VNull O)).
    left. reflexivity.
  - apply (proj1 (validation_fails_before_any_call
                    (Sample.collaborators Sample.phone)
                    (VStr "home") (VStr "2") VNull O)).
    right. split; reflexivity.
  - apply (proj1 (proj2 (validation_fails_before_any_call
                           (Sample.collaborators Sample.phone)
                           VNull VNull (VStr EmptyString) O))).
    reflexivity.
Defined.

(** ** More on running a command *)
Section RunMore.

Context {S : Type} (h : handler S).

Lemma run_await (c : call) (s : S) :
  run h (await c) s = Outcome [Called c] (fst (h c s)) (snd (h c s)).
Proof. unfold await. simpl. destruct (h c s) as [[v | e] s']; reflexivity. Qed.

Lemma run_fails {A : Type} (c : call) (k : value -> prog A) (e : error) (s : S) :
  fails h c e ->
  run h (Call c k) s = Outcome [Called c] (inr e) (snd (h c s)).
Proof.
  intros Hc. simpl. specialize (Hc s).
  destruct (h c s) as [r s']. simpl in Hc. subst r. reflexivity.
Qed.

(** A command that got through is followed by what comes after it. *)
Lemma run_bind_ok {A B : Type} (p : prog A) (f : A -> prog B)
    (t : list event) (a : A) (s s' : S) :
  run h p s = Outcome t (inl a) s' ->
  run h (bind p f) s = fold_right after (run h (f a) s') t.
Proof.
  revert t s. induction p as [x | e | l m k IH | c k IH]; intros t s; simpl.
  - intros [= <- -> ->]. reflexivity.
  - discriminate.
  - destruct (run h k s) as [t0 r0 s0] eqn:Hk. unfold after at 1. simpl.
    intros [= <- -> ->]. rewrite (IH t0 s Hk). reflexivity.
  - destruct (h c s) as [[v | e] s1].
    + destruct (run h (k v) s1) as [t0 r0 s0] eqn:Hk. unfold after at 1.
      simpl. intros [= <- -> ->]. rewrite (IH v t0 s1 Hk). reflexivity.
    + discriminate.
Qed.

(** A command that failed ends what it is part of. *)
Lemma run_bind_failed {A B : Type} (p : prog A) (f : A -> prog B)
    (t : list event) (e : error) (s s' : S) :
  run h p s = Outcome t (inr e) s' ->
  run h (bind p f) s = Outcome t (inr e) s'.
Proof.
  revert t s. induction p as [x | e0 | l m k IH | c k IH]; intros t s; simpl.
  - discriminate.
  - intros [= <- <- <-]. reflexivity.
  - destruct (run h k s) as [t0 r0 s0] eqn:Hk. unfold after at 1. simpl.
    intros [= <- -> ->]. rewrite (IH t0 s Hk). reflexivity.
  - destruct (h c s) as [[v | e1] s1].
    + destruct (run h (k v) s1) as [t0 r0 s0] eqn:Hk. unfold after at 1.
      simpl. intros [= <- -> ->]. rewrite (IH v t0 s1 Hk). reflexivity.
    + intros [= <- <- <-]. reflexivity.
Qed.

End RunMore.

(** ** [background], request by request *)
Section BackgroundRequests.

Context {S : Type} (h : handler S).



(** X2.  Zero is a duration: for the Number zero of either sign, given as
    it is or as the [timeout] of an options object, [background] sends the
    duration request with the duration [+0]. *)
Theorem background_zero (sign : bool) (props : list (string * value)) :
  Value.lookup "timeout" props = Some (VNum (S754_zero sign)) ->
  background (VNum (S754_zero sign))
  = deactivateWithDuration (S754_zero false)
  /\ background (VObj props) = deactivateWithDuration (S754_zero false).
Proof.
  intros Hl. split.
  - destruct sign; reflexivity.
  - rewrite background_dispatch, (selected_timeout props _ Hl eq_refl).
    destruct sign; reflexivity.
Qed.

(** Rounding a magnitude that is not negative gives a zero, a finite
    Number or an infinity of the sign asked for. *)
Lemma binary_round_aux_sign (sign : bool) (m e : Z) (l : location) :
  0 <= m ->
  binary_round_aux JS.prec JS.emax sign m e l = S754_zero sign
  \/ binary_round_aux JS.prec JS.emax sign m e l = S754_infinity sign
  \/ exists (m' : positive) (e' : Z),
       binary_round_aux JS.prec JS.emax sign m e l = S754_finite sign m' e'.
Proof.
  intros Hm. unfold binary_round_aux.
  pose proof (shr_fexp_nonneg m e l Hm) as H1.
  destruct (shr_fexp JS.prec JS.emax m e l) as [mrs' e']. cbn [fst] in H1.
  pose proof (shr_fexp_nonneg
                (round_nearest_even (shr_m mrs') (loc_of_shr_record mrs'))
                e' loc_Exact
                (round_nearest_even_nonneg _ _ H1)) as H2.
  destruct (shr_fexp JS.prec JS.emax
              (round_nearest_even (shr_m mrs') (loc_of_shr_record mrs'))
              e' loc_Exact) as [mrs'' e''].
  cbn [fst] in H2.
  destruct (shr_m mrs'') as [ | p | p].
  - left. reflexivity.
  - destruct (e'' <=? JS.emax - JS.prec); eauto.
  - lia.
Qed.

(** A thousandth of a negative Number is negative or the negative zero. *)
Lemma thousandth_of_negative (n : JS.number) :
  JS.lt n (JS.of_Z 0) = true ->
  JS.lt (JS.div (JS.reread n) (JS.of_Z 1000)) (JS.of_Z 0) = true
  \/ JS.div (JS.reread n) (JS.of_Z 1000) = S754_zero true.
Proof.
  destruct n as [sg | sg | | sg m e]; try destruct sg; try discriminate;
    intros _.
  - left. reflexivity.
  - change (JS.of_Z 1000) with (S754_finite false 8796093022208000 (-43)).
    cbn [JS.reread JS.div SFdiv xorb].
    unfold SFdiv_core_binary.
    set (e' := Z.min _ _).
    set (m' := match e - -43 - e' with Z0 => _ | Zpos _ => _ | Zneg _ => _ end).
    assert (Hm' : 0 <= m').
    { subst m'. destruct (e - -43 - e'); try lia. apply Z.shiftl_nonneg. lia. }
    pose proof (Z.div_pos m' 8796093022208000 Hm' ltac:(lia)) as Hq.
    unfold Z.div in Hq.
    destruct (Z.div_eucl m' 8796093022208000) as [q r]. cbn [fst] in Hq.
    destruct (binary_round_aux_sign true q e'
                (new_location 8796093022208000 r) Hq)
      as [-> | [-> | (m1 & e1 & ->)]]; auto.
Qed.

(** X3.  A negative [timeout] of an options object is divided by 1000
    before its sign is looked at: [background] sends the home request when
    the thousandth is still negative, and the duration request with the
    duration [+0] when the thousandth rounds to the negative zero. *)
Theorem background_negative_timeout
    (props : list (string * value)) (n : JS.number) :
  Value.lookup "timeout" props = Some (VNum n) ->
  JS.lt n (JS.of_Z 0) = true ->
  (JS.lt (JS.div n (JS.of_Z 1000)) (JS.of_Z 0) = true
   /\ background (VObj props) = restoreHome)
  \/ (JS.div n (JS.of_Z 1000) = S754_zero true
      /\ background (VObj props) = deactivateWithDuration (S754_zero false)).
Proof.
  intros Hl Hneg.
  destruct (number_negative n Hneg) as (_ & Hn & _).
  assert (Hre : JS.reread n = n).
  { destruct n as [sg | sg | | sg m e]; try reflexivity.
    destruct sg; discriminate Hneg. }
  pose proof (selected_timeout props (VNum n) Hl Hn) as Hsel.
  cbn [Value.parseFloat] in Hsel. rewrite Hre in Hsel.
  destruct (thousandth_of_negative n Hneg) as [Hlt | Hzero];
    rewrite Hre in *.
  - left. split; [assumption | ].
    destruct (number_negative _ Hlt) as (Hv' & Hn' & Hd').
    apply background_negative; rewrite Hsel; assumption.
  - right. split; [assumption | ].
    rewrite background_dispatch, Hsel, Hzero. reflexivity.
Qed.

(** X4.  [mobilePressButton] with a name that is not empty and a duration
    that is left out or is a Number, and [mobileSiriCommand] with a text
    that is not empty, throw nothing of their own: each sends its one
    request and ends as the request ended. *)
Theorem valid_arguments_send_one_request
    (name durationSeconds text : value) (s : S) :
  (Value.truthy name = true ->
   Lodash.isNil durationSeconds = true
   \/ Lodash.isNumber durationSeconds = true ->
   run h (mobilePressButton name durationSeconds) s
   = Outcome [Called (pressButtonCall name durationSeconds)]
       (fst (h (pressButtonCall name durationSeconds) s))
       (snd (h (pressButtonCall name durationSeconds) s)))
  /\ (Value.truthy text = true ->
      run h (mobileSiriCommand text) s
      = Outcome [Called (siriCall text)]
          (fst (h (siriCall text) s)) (snd (h (siriCall text) s))).
Proof.
  split.
  - intros Hname Hd. unfold mobilePressButton. rewrite Hname. cbn [negb].
    replace (negb (Lodash.isNil durationSeconds)
             && negb (Lodash.isNumber durationSeconds)) with false
      by (destruct Hd as [-> | ->]; cbn [negb andb];
          auto using Bool.andb_false_r).
    apply (run_await h (pressButtonCall name durationSeconds) s).
  - intros Htext. unfold mobileSiriCommand. rewrite Htext. cbn [negb].
    apply (run_await h (siriCall text) s).
Qed.

End BackgroundRequests.

Lemma background_zero_witness :
  background (VNum (S754_zero true)) = deactivateWithDuration (S754_zero false)
  /\ background (VObj [("timeout", VNum (S754_zero true))])
     = deactivateWithDuration (S754_zero false).
Proof.
  apply (background_zero true [("timeout", VNum (S754_zero true))]).
  reflexivity.
Defined.

Lemma background_negative_timeout_witness :
  background (VObj [("timeout", VNum (JS.of_Z (-2)))]) = restoreHome
  /\ background (VObj [("timeout", VNum (S754_finite true 1 (-1074)))])
     = deactivateWithDuration (S754_zero false).
Proof.
  split.
  - destruct (background_negative_timeout
                [("timeout", VNum (JS.of_Z (-2)))] (JS.of_Z (-2))
                eq_refl eq_refl) as [[_ H] | [H _]].
    + exact H.
    + discriminate H.
  - destruct (background_negative_timeout
                [("timeout", VNum (S754_finite true 1 (-1074)))]
                (S754_finite true 1 (-1074)) eq_refl eq_refl)
      as [[H _] | [_ H]].
    + discriminate H.
    + exact H.
Defined.

Lemma valid_arguments_send_one_request_witness :
  run (Sample.collaborators Sample.phone)
    (mobilePressButton (VStr "home") (VNum JS.NaN)) O
  = Outcome [Called (pressButtonCall (VStr "home") (VNum JS.NaN))]
      (inl VNull) 1%nat
  /\ run (without_proxy Sample.phone) (mobileSiriCommand (VStr "Hello")) O
     = Outcome [Called (siriCall (VStr "Hello"))] (inr outage) 1%nat.
Proof.
  split.
  - apply (proj1 (valid_arguments_send_one_request
                    (Sample.collaborators Sample.phone)
                    (VStr "home") (VNum JS.NaN) VNull O)).
    + reflexivity.
    + right. reflexivity.
  - apply (proj2 (valid_arguments_send_one_request
                    (without_proxy Sample.phone)
                    VNull VNull (VStr "Hello") O)).
    reflexivity.
Defined.

(** ** The window and the viewport, call by call *)
Section GeometryCalls.

Context {S : Type} (h : handler S).

Lemma getWindowSize_run (windowHandle web size : value) (s : S) :
  windowHandle = VUndefined \/ windowHandle = VStr "current" ->
  answers h isWebContext web ->
  answers h (window_size_call web) size ->
  run h (getWindowSize windowHandle) s
  = Outcome [Called isWebContext; Called (window_size_call web)] (inl size)
      (snd (h (window_size_call web) (snd (h isWebContext s)))).
Proof.
  intros Hwh Hweb Hsize. unfold getWindowSize.
  replace (default windowHandle (VStr "current")) with (VStr "current")
    by (destruct Hwh as [-> | ->]; reflexivity).
  replace (is_string (VStr "current") "current") with true by reflexivity.
  cbn [negb bind await]. rewrite (run_call h _ _ _ _ Hweb).
  unfold getWindowSizeNative, getWindowSizeWeb. unfold window_size_call in *.
  destruct (negb (Value.truthy web)); cbn [bind await];
    rewrite (run_call h _ _ _ _ Hsize); reflexivity.
Qed.

Lemma getWindowSize_run_failed (web : value) (e : error) (s : S) :
  answers h isWebContext web ->
  fails h (window_size_call web) e ->
  run h (getWindowSize VUndefined) s
  = Outcome [Called isWebContext; Called (window_size_call web)] (inr e)
      (snd (h (window_size_call web) (snd (h isWebContext s)))).
Proof.
  intros Hweb Hsize. unfold getWindowSize.
  cbn [default].
  replace (is_string (VStr "current") "current") with true by reflexivity.
  cbn [negb bind await]. rewrite (run_call h _ _ _ _ Hweb).
  unfold getWindowSizeNative, getWindowSizeWeb. unfold window_size_call in *.
  destruct (negb (Value.truthy web)); cbn [bind await];
    rewrite (run_fails h _ _ _ _ Hsize); reflexivity.
Qed.

Lemma getDevicePixelRatio_run (screen scale : value) (s : S) :
  answers h screen_call screen ->
  Value.prop screen "scale" = Some scale ->
  run h getDevicePixelRatio s
  = Outcome [Called screen_call] (inl scale) (snd (h screen_call s)).
Proof.
  intros Hscreen Hscale. unfold getDevicePixelRatio, getScreenInfo.
  cbn [bind await]. fold screen_call.
  rewrite (run_call h _ _ _ _ Hscreen). unfold get. rewrite Hscale.
  reflexivity.
Qed.

Lemma getStatusBarHeight_run (screen bar : value) (s : S) :
  answers h screen_call screen ->
  Value.prop screen "statusBarSize" = Some bar ->
  run h getStatusBarHeight s
  = Outcome [Called screen_call]
      (match Value.prop bar "height" with
       | Some height => inl height
       | None => inr TypeError
       end)
      (snd (h screen_call s)).
Proof.
  intros Hscreen Hbar. unfold getStatusBarHeight, getScreenInfo.
  cbn [bind await]. fold screen_call.
  rewrite (run_call h _ _ _ _ Hscreen). unfold get. rewrite Hbar.
  cbn [bind]. destruct (Value.prop bar "height"); reflexivity.
Qed.

(** X5.  A window handle that is given and is not ['current'] is refused:
    [getWindowSize] throws NotYetImplementedError without asking for the
    context or the size. *)
Theorem getWindowSize_other_handle (windowHandle : value) (s : S) :
  windowHandle <> VUndefined ->
  is_string windowHandle "current" = false ->
  run h (getWindowSize windowHandle) s
  = Outcome []
      (inr (NotYetImplementedError
              [Text "Currently only getting current window size is supported."]))
      s.
Proof.
  intros Hgiven Hother. unfold getWindowSize.
  replace (default windowHandle (VStr "current")) with windowHandle
    by (destruct windowHandle; try reflexivity; congruence).
  rewrite Hother. reflexivity.
Qed.

(** X6.  For the current window [getWindowSize] asks for the context and
    then makes one request: the [get_window_size] atom in a web context,
    the [/window/size] request of the proxy otherwise.  It returns what
    that request answered, as it is. *)
Theorem getWindowSize_routes (windowHandle web size : value) (s : S) :
  windowHandle = VUndefined \/ windowHandle = VStr "current" ->
  answers h isWebContext web ->
  (Value.truthy web = true ->
   answers h (executeAtom "get_window_size" []) size ->
   trace (run h (getWindowSize windowHandle) s)
   = [Called isWebContext; Called (executeAtom "get_window_size" [])]
   /\ result (run h (getWindowSize windowHandle) s) = inl size)
  /\ (Value.truthy web = false ->
      answers h (proxyCommand "/window/size" "GET" None None) size ->
      trace (run h (getWindowSize windowHandle) s)
      = [Called isWebContext;
         Called (proxyCommand "/window/size" "GET" None None)]
      /\ result (run h (getWindowSize windowHandle) s) = inl size).
Proof.
  intros Hwh Hweb. split; intros Htruthy Hsize.
  - assert (Hcall : answers h (window_size_call web) size)
      by (unfold window_size_call; rewrite Htruthy; exact Hsize).
    rewrite (getWindowSize_run windowHandle web size s Hwh Hweb Hcall).
    unfold window_size_call. rewrite Htruthy. split; reflexivity.
  - assert (Hcall : answers h (window_size_call web) size)
      by (unfold window_size_call; rewrite Htruthy; exact Hsize).
    rewrite (getWindowSize_run windowHandle web size s Hwh Hweb Hcall).
    unfold window_size_call. rewrite Htruthy. split; reflexivity.
Qed.

(** X7.  [getWindowRect] validates nothing: a failure of the size request
    is thrown on unchanged, a size that is [undefined] or [null] ends in a
    TypeError, and a size without a [width] or a [height] gives a
    rectangle whose [width] or [height] is [undefined]. *)
Theorem getWindowRect_unchecked (web size : value) (e : error) (s : S) :
  answers h isWebContext web ->
  (fails h (window_size_call web) e ->
   result (run h getWindowRect s) = inr e)
  /\ (answers h (window_size_call web) size ->
      Lodash.isNil size = true ->
      result (run h getWindowRect s) = inr TypeError)
  /\ (answers h (window_size_call web) size ->
      Lodash.isNil size = false ->
      result (run h getWindowRect s)
      = inl (windowRect (read size "width") (read size "height"))).
Proof.
  intros Hweb. unfold getWindowRect. split; [ | split].
  - intros Hfail.
    rewrite (run_bind_failed h _ _ _ _ _ _
               (getWindowSize_run_failed web e s Hweb Hfail)).
    reflexivity.
  - intros Hsize Hnil.
    rewrite (run_bind_ok h _ _ _ _ _ _
               (getWindowSize_run VUndefined web size s (or_introl eq_refl)
                  Hweb Hsize)).
    destruct size; try discriminate Hnil; reflexivity.
  - intros Hsize Hnil.
    rewrite (run_bind_ok h _ _ _ _ _ _
               (getWindowSize_run VUndefined web size s (or_introl eq_refl)
                  Hweb Hsize)).
    unfold get, read.
    destruct size as [ | | b | n | t | props]; try discriminate Hnil;
      try reflexivity.
    cbn [Value.prop].
    destruct (Value.lookup "width" props), (Value.lookup "height" props);
      reflexivity.
Qed.

(** X8.  [getViewportRect] asks for the screen information twice, once for
    the scale and once for the status bar, then for the context, then for
    the window size, in this order and nothing else. *)
Theorem getViewportRect_calls
    (screen scale bar statusBarHeight web size width height : value) (s : S) :
  answers h screen_call screen ->
  Value.prop screen "scale" = Some scale ->
  Value.prop screen "statusBarSize" = Some bar ->
  Value.prop bar "height" = Some statusBarHeight ->
  answers h isWebContext web ->
  answers h (window_size_call web) size ->
  Value.prop size "width" = Some width ->
  Value.prop size "height" = Some height ->
  trace (run h getViewportRect s)
  = [Called screen_call; Called screen_call; Called isWebContext;
     Called (window_size_call web)].
Proof.
  intros Hscreen Hscale Hbar Hsb Hweb Hsize Hw Hh. unfold getViewportRect.
  rewrite (run_bind_ok h _ _ _ _ _ _
             (getDevicePixelRatio_run screen scale s Hscreen Hscale)).
  cbn [fold_right].
  pose proof (getStatusBarHeight_run screen bar (snd (h screen_call s))
                Hscreen Hbar) as Hrun.
  rewrite Hsb in Hrun.
  rewrite (run_bind_ok h _ _ _ _ _ _ Hrun). cbn [fold_right].
  rewrite (run_bind_ok h _ _ _ _ _ _
             (getWindowSize_run VUndefined web size _ (or_introl eq_refl)
                Hweb Hsize)).
  unfold get. rewrite Hw, Hh. reflexivity.
Qed.

(** X9.  When the screen information request fails, [getViewportRect]
    fails with the same error after that one request: the status bar, the
    context and the window size are never asked for. *)
Theorem getViewportRect_screen_failure (e : error) (s : S) :
  fails h screen_call e ->
  run h getViewportRect s
  = Outcome [Called screen_call] (inr e) (snd (h screen_call s)).
Proof.
  intros Hfail. unfold getViewportRect.
  apply run_bind_failed.
  unfold getDevicePixelRatio, getScreenInfo. cbn [bind await].
  fold screen_call. apply (run_fails h _ _ _ _ Hfail).
Qed.

(** X10.  A screen information without a [statusBarSize] ends
    [getViewportRect] in a TypeError after the two screen requests; the
    window size is never asked for. *)
Theorem getViewportRect_without_status_bar (screen scale bar : value) (s : S) :
  answers h screen_call screen ->
  Value.prop screen "scale" = Some scale ->
  Value.prop screen "statusBarSize" = Some bar ->
  Lodash.isNil bar = true ->
  trace (run h getViewportRect s) = [Called screen_call; Called screen_call]
  /\ result (run h getViewportRect s) = inr TypeError.
Proof.
  intros Hscreen Hscale Hbar Hnil. unfold getViewportRect.
  rewrite (run_bind_ok h _ _ _ _ _ _
             (getDevicePixelRatio_run screen scale s Hscreen Hscale)).
  cbn [fold_right].
  pose proof (getStatusBarHeight_run screen bar (snd (h screen_call s))
                Hscreen Hbar) as Hrun.
  replace (Value.prop bar "height") with (@None value) in Hrun
    by (destruct bar; try discriminate Hnil; reflexivity).
  rewrite (run_bind_failed h _ _ _ _ _ _ Hrun). split; reflexivity.
Qed.

Lemma times_nan (a b : value) :
  Value.isNaN b = true -> Value.times a b = JS.NaN.
Proof.
  unfold Value.isNaN, Value.times. intros Hb.
  destruct (Value.Number b); try discriminate Hb.
  destruct (Value.Number a); reflexivity.
Qed.

(** X11.  A scale that is no number is not refused: the viewport then has
    NaN as its [top], [width] and [height]. *)
Theorem getViewportRect_without_scale
    (screen scale bar statusBarHeight web size width height : value) (s : S) :
  answers h screen_call screen ->
  Value.prop screen "scale" = Some scale ->
  Value.prop screen "statusBarSize" = Some bar ->
  Value.prop bar "height" = Some statusBarHeight ->
  answers h isWebContext web ->
  answers h (window_size_call web) size ->
  Value.prop size "width" = Some width ->
  Value.prop size "height" = Some height ->
  Value.isNaN scale = true ->
  result (run h getViewportRect s) = inl nanRect.
Proof.
  intros Hscreen Hscale Hbar Hsb Hweb Hsize Hw Hh Hnan.
  unfold getViewportRect.
  rewrite (result_bind h _ _ scale s
             (getDevicePixelRatio_result h screen scale s Hscreen Hscale)).
  rewrite (result_bind h _ _ statusBarHeight _
             (getStatusBarHeight_result h screen bar statusBarHeight _
                Hscreen Hbar Hsb)).
  rewrite (result_bind h _ _ size _
             (getWindowSize_result h web size _ Hweb Hsize)).
  unfold get. rewrite Hw, Hh. cbn [bind run result].
  rewrite !(times_nan _ scale Hnan). reflexivity.
Qed.

End GeometryCalls.

Lemma getWindowSize_other_handle_witness :
  run (Sample.collaborators Sample.phone) (getWindowSize (VStr "1")) O
  = Outcome []
      (inr (NotYetImplementedError
              [Text "Currently only getting current window size is supported."]))
      O.
Proof.
  apply getWindowSize_other_handle.
  - discriminate.
  - reflexivity.
Defined.

Lemma getWindowSize_routes_witness :
  (trace (run (Sample.collaborators
                 (Sample.Device true true VNull (Sample.window Sample.phone)
                    EmptyString VNull))
            (getWindowSize (VStr "current")) O)
   = [Called isWebContext; Called (executeAtom "get_window_size" [])]
   /\ result (run (Sample.collaborators
                     (Sample.Device true true VNull (Sample.window Sample.phone)
                        EmptyString VNull))
                (getWindowSize (VStr "current")) O)
      = inl (Sample.window Sample.phone))
  /\ (trace (run (Sample.collaborators Sample.phone)
               (getWindowSize VUndefined) O)
      = [Called isWebContext;
         Called (proxyCommand "/window/size" "GET" None None)]
      /\ result (run (Sample.collaborators Sample.phone)
                   (getWindowSize VUndefined) O)
         = inl (Sample.window Sample.phone)).
Proof.
  split.
  - apply (proj1 (getWindowSize_routes
                    (Sample.collaborators
                       (Sample.Device true true VNull
                          (Sample.window Sample.phone) EmptyString VNull))
                    (VStr "current") (VBool true)
                    (Sample.window Sample.phone) O
                    (or_intror eq_refl) (fun s => eq_refl))).
    + reflexivity.
    + intros s. reflexivity.
  - apply (proj2 (getWindowSize_routes (Sample.collaborators Sample.phone)
                    VUndefined (VBool false) (Sample.window Sample.phone) O
                    (or_introl eq_refl) (fun s => eq_refl))).
    + reflexivity.
    + intros s. reflexivity.
Defined.

Lemma getWindowRect_unchecked_witness :
  result (run (without_proxy Sample.phone) getWindowRect O) = inr outage
  /\ result (run (Sample.collaborators Sample.simulator) getWindowRect O)
     = inr TypeError
  /\ result (run (Sample.collaborators
                    (Sample.Device false true VNull
                       (VObj [("width", VNum (JS.of_Z 400))])
                       EmptyString VNull))
               getWindowRect O)
     = inl (windowRect (VNum (JS.of_Z 400)) VUndefined).
Proof.
  split; [ | split].
  - apply (proj1 (getWindowRect_unchecked (without_proxy Sample.phone)
                    (VBool false) VNull outage O (fun s => eq_refl))).
    intros s. reflexivity.
  - apply (proj1 (proj2 (getWindowRect_unchecked
                           (Sample.collaborators Sample.simulator)
                           (VBool false) VNull outage O (fun s => eq_refl)))).
    + intros s. reflexivity.
    + reflexivity.
  - apply (proj2 (proj2 (getWindowRect_unchecked
                           (Sample.collaborators
                              (Sample.Device false true VNull
                                 (VObj [("width", VNum (JS.of_Z 400))])
                                 EmptyString VNull))
                           (VBool false)
                           (VObj [("width", VNum (JS.of_Z 400))])
                           outage O (fun s => eq_refl)))).
    + intros s. reflexivity.
    + reflexivity.
Defined.

Lemma getViewportRect_calls_witness :
  trace (run (Sample.collaborators Sample.phone) getViewportRect O)
  = [Called screen_call; Called screen_call; Called isWebContext;
     Called (proxyCommand "/window/size" "GET" None None)].
Proof.
  apply (getViewportRect_calls (Sample.collaborators Sample.phone)
           (Sample.screen Sample.phone) (VNum (JS.of_Z 2))
           (VObj [("width", VNum (JS.of_Z 400));
                  ("height", VNum (JS.of_Z 20))])
           (VNum (JS.of_Z 20)) (VBool false) (Sample.window Sample.phone)
           (VNum (JS.of_Z 400)) (VNum (JS.of_Z 800)) O);
    try reflexivity; intros s; reflexivity.
Defined.

Lemma getViewportRect_screen_failure_witness :
  run (without_proxy Sample.phone) getViewportRect O
  = Outcome [Called screen_call] (inr outage) 1%nat.
Proof.
  apply (getViewportRect_screen_failure (without_proxy Sample.phone) outage O).
  intros s. reflexivity.
Defined.

Lemma getViewportRect_without_status_bar_witness :
  result (run (Sample.collaborators
                 (Sample.Device false true
                    (VObj [("scale", VNum (JS.of_Z 3))])
                    VNull EmptyString VNull))
            getViewportRect O)
  = inr TypeError.
Proof.
  apply (getViewportRect_without_status_bar
           (Sample.collaborators
              (Sample.Device false true (VObj [("scale", VNum (JS.of_Z 3))])
                 VNull EmptyString VNull))
           (VObj [("scale", VNum (JS.of_Z 3))]) (VNum (JS.of_Z 3))
           VUndefined O);
    try reflexivity; intros s; reflexivity.
Defined.

Lemma getViewportRect_without_scale_witness :
  result (run (Sample.collaborators
                 (Sample.Device false true
                    (VObj [("statusBarSize",
                            VObj [("height", VNum (JS.of_Z 20))])])
                    (Sample.window Sample.phone) EmptyString VNull))
            getViewportRect O)
  = inl nanRect.
Proof.
  apply (getViewportRect_without_scale
           (Sample.collaborators
              (Sample.Device false true
                 (VObj [("statusBarSize",
                         VObj [("height", VNum (JS.of_Z 20))])])
                 (Sample.window Sample.phone) EmptyString VNull))
           (VObj [("statusBarSize", VObj [("height", VNum (JS.of_Z 20))])])
           VUndefined (VObj [("height", VNum (JS.of_Z 20))])
           (VNum (JS.of_Z 20)) (VBool false) (Sample.window Sample.phone)
           (VNum (JS.of_Z 400)) (VNum (JS.of_Z 800)) O);
    try reflexivity; intros s; reflexivity.
Defined.

(** ** The device time, line by line *)
Section DeviceTimeCalls.

Context {M : Moment.lib} {S : Type} (h : handler S).

Lemma trace_call {A : Type} (c : call) (k : value -> prog A) (v : value) (s : S) :
  answers h c v ->
  trace (run h (Call c k) s) = Called c :: trace (run h (k v) (snd (h c s))).
Proof. intros Hc. rewrite (run_call h c k v s Hc). reflexivity. Qed.

Lemma trace_log {A : Type} (l : level) (m : message) (k : prog A) (s : S) :
  trace (run h (Log l m k) s) = Logged l m :: trace (run h k s).
Proof. reflexivity. Qed.

Lemma abs_of_no_number (v : value) (bound : JS.number) :
  Value.isNaN v = true -> JS.le (Value.Math_abs v) bound = false.
Proof.
  unfold Value.isNaN, Value.Math_abs. intros Hv.
  destruct (Value.Number v); try discriminate Hv. reflexivity.
Qed.

(** The physical path for a reading of any shape that is an object. *)
Lemma getDeviceTime_physical_reading
    (real udid device timestamp utcOffset timeZone format : value) (s : S) :
  answers h isRealDevice real ->
  Value.truthy real = true ->
  answers h (opts "udid") udid ->
  answers h (utilities_getDeviceTime udid) device ->
  Value.prop device "timestamp" = Some timestamp ->
  Value.prop device "utcOffset" = Some utcOffset ->
  Value.prop device "timeZone" = Some timeZone ->
  ((Lodash.isNil utcOffset = true ->
    JS.le (Value.Math_abs utcOffset) (JS.of_Z (12 * 60)) = false) ->
   result (run h (getDeviceTime format) s)
   = inl (VStr (Moment.format
                  (resolveOffset (utc_instant timestamp) utcOffset timeZone)
                  (default format (VStr MOMENT_FORMAT_ISO8601)))))
  /\ trace (run h (getDeviceTime format) s)
     = ([logAttempt; Called isRealDevice; Called (opts "udid");
         Called (utilities_getDeviceTime udid);
         logReading timestamp utcOffset timeZone]
        ++ (if offset_known utcOffset timeZone then [] else [logNoOffset]))%list.
Proof.
  intros Hreal Htruthy Hudid Hclock Hts Huo Htz.
  unfold getDeviceTime. cbn [bind log await].
  rewrite result_log, trace_log, (result_call h _ _ _ _ Hreal),
    (trace_call _ _ _ _ Hreal), Htruthy.
  cbn [negb bind].
  rewrite (result_call h _ _ _ _ Hudid), (trace_call _ _ _ _ Hudid),
    (result_call h _ _ _ _ Hclock), (trace_call _ _ _ _ Hclock).
  unfold get. rewrite Hts, Huo, Htz. cbn [bind].
  rewrite result_log, trace_log, twelve_hours_in_seconds,
    twelve_hours_in_minutes.
  unfold resolveOffset, utc_instant, offset_known, format_at.
  destruct (JS.le (Value.Math_abs utcOffset) (JS.of_Z (12 * 60))).
  - destruct (Lodash.isNil utcOffset); split; try reflexivity.
    intros Hnil. discriminate (Hnil eq_refl).
  - destruct (Lodash.includes timeZone "/"); [split; reflexivity | ].
    destruct (JS.le (Value.Math_abs timeZone) (JS.of_Z (12 * 60 * 60)));
      split; reflexivity.
Qed.


(** X13.  On a simulator [getDeviceTime] asks whether the device is real
    and runs [date], and never asks the device time service; it logs the
    trimmed output, and a warning exactly when that output does not
    parse. *)
Theorem getDeviceTime_simulator_trace
    (real out format : value) (output : string) (s : S) :
  answers h isRealDevice real ->
  Value.truthy real = false ->
  answers h date_call out ->
  Value.prop out "stdout" = Some (VStr output) ->
  trace (run h (getDeviceTime format) s)
  = ([logAttempt; Called isRealDevice; logSimulator; Called date_call;
      logOutput (JS.trim output)]
     ++ (if Moment.isValid (Moment.parse_utc (JS.trim output) inputFormat)
         then []
         else [logCannotParse (JS.trim output)]))%list.
Proof.
  intros Hreal Hfalsy Hdate Hout.
  unfold getDeviceTime. cbn [bind log await].
  rewrite trace_log, (trace_call _ _ _ _ Hreal), Hfalsy.
  cbn [negb bind]. rewrite trace_log.
  fold date_call. rewrite (trace_call _ _ _ _ Hdate).
  unfold get. rewrite Hout. cbn [bind trim_of]. rewrite trace_log.
  fold inputFormat. unfold format_at. rewrite or_else_present.
  destruct (Moment.isValid (Moment.parse_utc (JS.trim output) inputFormat));
    reflexivity.
Qed.

(** X14.  On a physical device [getDeviceTime] reads the device
    identifier and asks the device time service, and never runs [date];
    it logs the reading, and a warning exactly when none of the three
    ways to tell the offset applies. *)
Theorem getDeviceTime_device_trace
    (real udid timestamp utcOffset timeZone format : value) (s : S) :
  answers h isRealDevice real ->
  Value.truthy real = true ->
  answers h (opts "udid") udid ->
  answers h (utilities_getDeviceTime udid)
    (reading timestamp utcOffset timeZone) ->
  trace (run h (getDeviceTime format) s)
  = ([logAttempt; Called isRealDevice; Called (opts "udid");
      Called (utilities_getDeviceTime udid);
      logReading timestamp utcOffset timeZone]
     ++ (if offset_known utcOffset timeZone then [] else [logNoOffset]))%list.
Proof.
  intros Hreal Htruthy Hudid Hclock.
  apply (getDeviceTime_physical_reading real udid
           (reading timestamp utcOffset timeZone)
           timestamp utcOffset timeZone format s
           Hreal Htruthy Hudid Hclock eq_refl eq_refl eq_refl).
Qed.

(** X15.  A reading that is [undefined] or [null] ends [getDeviceTime] in
    a TypeError.  A reading that is an object without [utcOffset] and
    without [timeZone] is formatted as the bare UTC instant, with the
    warning logged. *)
Theorem getDeviceTime_poor_reading
    (real udid device format : value) (s : S) :
  answers h isRealDevice real ->
  Value.truthy real = true ->
  answers h (opts "udid") udid ->
  answers h (utilities_getDeviceTime udid) device ->
  (Lodash.isNil device = true ->
   result (run h (getDeviceTime format) s) = inr TypeError)
  /\ (forall props : list (string * value),
        device = VObj props ->
        Value.lookup "utcOffset" props = None ->
        Value.lookup "timeZone" props = None ->
        result (run h (getDeviceTime format) s)
        = inl (VStr (Moment.format (utc_instant (read device "timestamp"))
                       (default format (VStr MOMENT_FORMAT_ISO8601))))
        /\ In logNoOffset (trace (run h (getDeviceTime format) s))).
Proof.
  intros Hreal Htruthy Hudid Hclock. split.
  - intros Hnil. unfold getDeviceTime. cbn [bind log await].
    rewrite result_log, (result_call h _ _ _ _ Hreal), Htruthy.
    cbn [negb bind].
    rewrite (result_call h _ _ _ _ Hudid), (result_call h _ _ _ _ Hclock).
    destruct device; try discriminate Hnil; reflexivity.
  - intros props -> Huo Htz.
    destruct (getDeviceTime_physical_reading real udid (VObj props)
                (read (VObj props) "timestamp") VUndefined VUndefined
                format s Hreal Htruthy Hudid Hclock)
      as [Hres Htrace].
    + unfold read. cbn [Value.prop].
      destruct (Value.lookup "timestamp" props); reflexivity.
    + cbn [Value.prop]. rewrite Huo. reflexivity.
    + cbn [Value.prop]. rewrite Htz. reflexivity.
    + rewrite (Hres (fun _ => eq_refl)), Htrace. split; [reflexivity | ].
      apply in_or_app. right. left. reflexivity.
Qed.

(** X16.  On a simulator a failure of [date] is thrown on unchanged, with
    nothing logged after it, and an answer whose [stdout] is no string
    ends [getDeviceTime] in a TypeError. *)
Theorem getDeviceTime_date_failure
    (real out raw format : value) (e : error) (s : S) :
  answers h isRealDevice real ->
  Value.truthy real = false ->
  (fails h date_call e ->
   result (run h (getDeviceTime format) s) = inr e
   /\ trace (run h (getDeviceTime format) s)
      = [logAttempt; Called isRealDevice; logSimulator; Called date_call])
  /\ (answers h date_call out ->
      Value.prop out "stdout" = Some raw ->
      (forall text : string, raw <> VStr text) ->
      result (run h (getDeviceTime format) s) = inr TypeError).
Proof.
  intros Hreal Hfalsy. split.
  - intros Hfail. unfold getDeviceTime. cbn [bind log await].
    rewrite result_log, trace_log, (result_call h _ _ _ _ Hreal),
      (trace_call _ _ _ _ Hreal), Hfalsy.
    cbn [negb bind]. rewrite result_log, trace_log. fold date_call.
    rewrite (run_fails h _ _ _ _ Hfail). split; reflexivity.
  - intros Hdate Hout Hraw. unfold getDeviceTime. cbn [bind log await].
    rewrite result_log, (result_call h _ _ _ _ Hreal), Hfalsy.
    cbn [negb bind]. rewrite result_log. fold date_call.
    rewrite (result_call h _ _ _ _ Hdate). unfold get. rewrite Hout.
    cbn [bind]. destruct raw; try reflexivity.
    exfalso. apply (Hraw s0). reflexivity.
Qed.

(** X22.  A reported offset of [null] passes the first rule, its
    magnitude being 0, and [getDeviceTime] then ends in a TypeError:
    [utcOffset(null)] is the getter of the library and what it returns
    cannot be formatted. *)
Theorem getDeviceTime_null_offset
    (real udid timestamp timeZone format : value) (s : S) :
  answers h isRealDevice real ->
  Value.truthy real = true ->
  answers h (opts "udid") udid ->
  answers h (utilities_getDeviceTime udid) (reading timestamp VNull timeZone) ->
  result (run h (getDeviceTime format) s) = inr TypeError.
Proof.
  intros Hreal Htruthy Hudid Hclock.
  unfold getDeviceTime. cbn [bind log await].
  rewrite result_log, (result_call h _ _ _ _ Hreal), Htruthy.
  cbn [negb bind].
  rewrite (result_call h _ _ _ _ Hudid), (result_call h _ _ _ _ Hclock).
  reflexivity.
Qed.

(** X23.  Whatever Number the device reports as its offset, when its
    magnitude is at most 12 * 60 the instant is formatted at the minutes
    the library reads in it: sixty times the offset when its magnitude is
    below 16, the offset itself otherwise. *)
Theorem getDeviceTime_offset_as_read {O : Moment.offsets M}
    (real udid timestamp timeZone format : value) (n : JS.number) (s : S) :
  answers h isRealDevice real ->
  Value.truthy real = true ->
  answers h (opts "udid") udid ->
  answers h (utilities_getDeviceTime udid)
    (reading timestamp (VNum n) timeZone) ->
  JS.le (JS.Math_abs n) (JS.of_Z (12 * 60)) = true ->
  result (run h (getDeviceTime format) s)
  = formatted
      (Moment.at_minutes (utc_instant timestamp)
         (if JS.lt (JS.Math_abs n) (JS.of_Z 16)
          then JS.mul n (JS.of_Z 60)
          else n))
      format.
Proof.
  intros Hreal Htruthy Hudid Hclock Hle.
  destruct (getDeviceTime_physical_reading real udid
              (reading timestamp (VNum n) timeZone)
              timestamp (VNum n) timeZone format s
              Hreal Htruthy Hudid Hclock eq_refl eq_refl eq_refl)
    as [Hres _].
  rewrite Hres by discriminate.
  unfold resolveOffset, formatted.
  change (Value.Math_abs (VNum n)) with (JS.Math_abs n). rewrite Hle.
  rewrite Moment.utcOffset_number. reflexivity.
Qed.

End DeviceTimeCalls.


Lemma getDeviceTime_simulator_trace_witness :
  trace (run (Sample.collaborators Sample.simulator)
           (getDeviceTime (M := Sample.moment) VUndefined) O)
  = [logAttempt; Called isRealDevice; logSimulator; Called date_call;
     logOutput "date: illegal time format";
     logCannotParse "date: illegal time format"].
Proof.
  apply (getDeviceTime_simulator_trace (M := Sample.moment)
           (Sample.collaborators Sample.simulator) (VBool false)
           (VObj [("stdout", VStr (Sample.date_output Sample.simulator))])
           VUndefined (Sample.date_output Sample.simulator) O
           (fun s => eq_refl) eq_refl (fun s => eq_refl) eq_refl).
Defined.

Lemma getDeviceTime_device_trace_witness :
  trace (run (Sample.collaborators Sample.phone)
           (getDeviceTime (M := Sample.moment) VUndefined) O)
  = [logAttempt; Called isRealDevice; Called (opts "udid");
     Called (utilities_getDeviceTime (VStr "00008030-001C2D903C42802E"));
     logReading (VNum (JS.of_Z 1700000000)) (VNum (JS.of_Z 900))
       (VStr "Europe/Berlin")].
Proof.
  apply (getDeviceTime_device_trace (M := Sample.moment)
           (Sample.collaborators Sample.phone) (VBool true)
           (VStr "00008030-001C2D903C42802E")
           (VNum (JS.of_Z 1700000000)) (VNum (JS.of_Z 900))
           (VStr "Europe/Berlin") VUndefined O
           (fun s => eq_refl) eq_refl (fun s => eq_refl) (fun s => eq_refl)).
Defined.

Lemma getDeviceTime_poor_reading_witness :
  result (run (Sample.collaborators
                 (Sample.Device false true VNull VNull EmptyString VNull))
            (getDeviceTime (M := Sample.moment) VUndefined) O)
  = inr TypeError
  /\ result (run (Sample.collaborators
                    (Sample.Device false true VNull VNull EmptyString
                       (VObj [("timestamp", VNum (JS.of_Z 1700000000))])))
               (getDeviceTime (M := Sample.moment) VUndefined) O)
     = inl (VStr "unix.utc as YYYY-MM-DDTHH:mm:ssZ").
Proof.
  split.
  - apply (proj1 (getDeviceTime_poor_reading (M := Sample.moment)
                    (Sample.collaborators
                       (Sample.Device false true VNull VNull EmptyString VNull))
                    (VBool true) (VStr "00008030-001C2D903C42802E") VNull
                    VUndefined O
                    (fun s => eq_refl) eq_refl (fun s => eq_refl)
                    (fun s => eq_refl))).
    reflexivity.
  - apply (proj2 (getDeviceTime_poor_reading (M := Sample.moment)
                    (Sample.collaborators
                       (Sample.Device false true VNull VNull EmptyString
                          (VObj [("timestamp", VNum (JS.of_Z 1700000000))])))
                    (VBool true) (VStr "00008030-001C2D903C42802E")
                    (VObj [("timestamp", VNum (JS.of_Z 1700000000))])
                    VUndefined O
                    (fun s => eq_refl) eq_refl (fun s => eq_refl)
                    (fun s => eq_refl))
             [("timestamp", VNum (JS.of_Z 1700000000))]
             eq_refl eq_refl eq_refl).
Defined.

Lemma getDeviceTime_date_failure_witness :
  result (run (without_date Sample.simulator)
            (getDeviceTime (M := Sample.moment) VUndefined) O)
  = inr outage
  /\ result (run (with_date_answer (VObj []) Sample.simulator)
               (getDeviceTime (M := Sample.moment) VUndefined) O)
     = inr TypeError.
Proof.
  split.
  - apply (proj1 (getDeviceTime_date_failure (M := Sample.moment)
                    (without_date Sample.simulator) (VBool false)
                    VNull VNull VUndefined outage O
                    (fun s => eq_refl) eq_refl)).
    intros s. reflexivity.
  - apply (proj2 (getDeviceTime_date_failure (M := Sample.moment)
                    (with_date_answer (VObj []) Sample.simulator)
                    (VBool false) (VObj []) VUndefined VUndefined outage O
                    (fun s => eq_refl) eq_refl)).
    + intros s. reflexivity.
    + reflexivity.
    + discriminate.
Defined.

Lemma getDeviceTime_null_offset_witness :
  result (run (Sample.collaborators (Clock.device VNull (VStr "Europe/Berlin")))
            (getDeviceTime (M := Clock.moment) VUndefined) O)
  = inr TypeError.
Proof.
  apply (getDeviceTime_null_offset (M := Clock.moment)
           (Sample.collaborators (Clock.device VNull (VStr "Europe/Berlin")))
           (VBool true) (VStr "00008030-001C2D903C42802E")
           (VNum (JS.of_Z 1700000000)) (VStr "Europe/Berlin") VUndefined O
           (fun s => eq_refl) eq_refl (fun s => eq_refl) (fun s => eq_refl)).
Defined.

Lemma getDeviceTime_offset_as_read_witness :
  result (run (Sample.collaborators
                 (Clock.device (VNum (JS.of_Z (-3))) (VStr "Europe/Berlin")))
            (getDeviceTime (M := Clock.moment) (VStr "HH:mm")) O)
  = inl (VStr "unix 1700000000, utc, at -180 minutes as HH:mm").
Proof.
  apply (getDeviceTime_offset_as_read (M := Clock.moment) (O := Clock.offsets)
           (Sample.collaborators
              (Clock.device (VNum (JS.of_Z (-3))) (VStr "Europe/Berlin")))
           (VBool true) (VStr "00008030-001C2D903C42802E")
           (VNum (JS.of_Z 1700000000)) (VStr "Europe/Berlin") (VStr "HH:mm")
           (JS.of_Z (-3)) O
           (fun s => eq_refl) eq_refl (fun s => eq_refl) (fun s => eq_refl)
           eq_refl).
Defined.

(** ** The session, the page and the wrappers *)
Section DriverCommands.

Import Driver.

Context {S : Type} (h : Driver.handler S).

Lemma perform_ask {A : Type} (c : method) (k : value + error -> proc A)
    (r : value + error) (s : S) :
  replies h c r ->
  perform h (Ask c k) s = then_ (Asked c) (perform h (k r) (snd (h c s))).
Proof.
  intros Hc. simpl. specialize (Hc s).
  destruct (h c s) as [r' s']. simpl in Hc. subst r'. reflexivity.
Qed.

Lemma perform_say {A : Type} (l : level) (m : message) (k : proc A) (s : S) :
  perform h (Say l m k) s = then_ (Said l m) (perform h k s).
Proof. reflexivity. Qed.

Lemma perform_clear {A : Type} (field : string) (k : proc A) (s : S) :
  perform h (Clear field k) s = then_ (Cleared field) (perform h k s).
Proof. reflexivity. Qed.

Lemma perform_call_method (c : method) (s : S) :
  perform h (call_method c) s
  = Report [Asked c] (fst (h c s)) (snd (h c s)).
Proof.
  unfold call_method. simpl. destruct (h c s) as [[v | e] s']; reflexivity.
Qed.

(** X17.  [launchApp] logs that it is deprecated, reads the name of the
    application (the [app] option, the [bundleId] option when there is
    none) and starts the session once.  When the session starts it logs
    the success and returns nothing; when starting fails it logs a
    warning and throws the same error on. *)
Theorem launchApp_outcomes (app bundle : value) (r : value + error) (s : S) :
  replies h (base (opts "app")) (inl app) ->
  (Value.truthy app = false ->
   replies h (base (opts "bundleId")) (inl bundle)) ->
  replies h start r ->
  steps (perform h launchApp s)
  = (launchDeprecated :: appNameSteps app
     ++ [Asked start;
         match r with
         | inl _ => launchSucceeded (if Value.truthy app then app else bundle)
         | inr _ => launchWentWrong (if Value.truthy app then app else bundle)
         end])%list
  /\ ending (perform h launchApp s) = ends_as r.
Proof.
  intros Happ Hbundle Hstart. unfold launchApp, appName, appNameSteps.
  cbn [seq say call_method]. rewrite perform_say.
  rewrite (perform_ask _ _ _ _ Happ). cbn [seq].
  destruct (Value.truthy app) eqn:Htruthy.
  - cbn [seq try_catch call_method].
    rewrite (perform_ask _ _ _ _ Hstart).
    destruct r; split; reflexivity.
  - cbn [seq try_catch call_method].
    rewrite (perform_ask _ _ _ _ (Hbundle eq_refl)).
    cbn [seq try_catch call_method].
    rewrite (perform_ask _ _ _ _ Hstart).
    destruct r; split; reflexivity.
Qed.

(** X18.  [closeApp] does the same around stopping the session: one
    [stop], the success logged when it went through, and when it failed
    a warning logged and the same error thrown on. *)
Theorem closeApp_outcomes (app bundle : value) (r : value + error) (s : S) :
  replies h (base (opts "app")) (inl app) ->
  (Value.truthy app = false ->
   replies h (base (opts "bundleId")) (inl bundle)) ->
  replies h stop r ->
  steps (perform h closeApp s)
  = (closeDeprecated :: appNameSteps app
     ++ [Asked stop;
         match r with
         | inl _ => closeSucceeded (if Value.truthy app then app else bundle)
         | inr _ => closeWentWrong (if Value.truthy app then app else bundle)
         end])%list
  /\ ending (perform h closeApp s) = ends_as r.
Proof.
  intros Happ Hbundle Hstop. unfold closeApp, appName, appNameSteps.
  cbn [seq say call_method]. rewrite perform_say.
  rewrite (perform_ask _ _ _ _ Happ). cbn [seq].
  destruct (Value.truthy app) eqn:Htruthy.
  - cbn [seq try_catch call_method].
    rewrite (perform_ask _ _ _ _ Hstop).
    destruct r; split; reflexivity.
  - cbn [seq try_catch call_method].
    rewrite (perform_ask _ _ _ _ (Hbundle eq_refl)).
    cbn [seq try_catch call_method].
    rewrite (perform_ask _ _ _ _ Hstop).
    destruct r; split; reflexivity.
Qed.

(** X19.  [setUrl] takes one of three ways.  In a web context it records
    the address, forgets the web frames and then navigates the remote
    debugger, without asking whether the device is real; the address is
    recorded and the frames are forgotten also when the navigation then
    fails.  Out of a web context it posts the address to [/url] of the
    proxy on a real device and opens it through the simulator control
    otherwise.  It returns nothing and throws a failure of its last call
    on unchanged. *)
Theorem setUrl_routes (url web real noted : value) (r : value + error)
    (s : S) :
  replies h (base isWebContext) (inl web) ->
  (Value.truthy web = true ->
   replies h (setCurrentUrl url) (inl noted) ->
   replies h (remote_navToUrl url) r ->
   steps (perform h (setUrl url) s)
   = [settingUrl url; Asked (base isWebContext); Asked (setCurrentUrl url);
      Cleared "curWebFrames"; Asked (remote_navToUrl url)]
   /\ ending (perform h (setUrl url) s) = ends_as r)
  /\ (Value.truthy web = false ->
      replies h (base isRealDevice) (inl real) ->
      Value.truthy real = true ->
      replies h (base (proxyCommand "/url" "POST"
                         (Some (VObj [("url", url)])) None)) r ->
      steps (perform h (setUrl url) s)
      = [settingUrl url; Asked (base isWebContext); Asked (base isRealDevice);
         Asked (base (proxyCommand "/url" "POST"
                        (Some (VObj [("url", url)])) None))]
      /\ ending (perform h (setUrl url) s) = ends_as r)
  /\ (Value.truthy web = false ->
      replies h (base isRealDevice) (inl real) ->
      Value.truthy real = false ->
      replies h (simctl_openUrl url) r ->
      steps (perform h (setUrl url) s)
      = [settingUrl url; Asked (base isWebContext); Asked (base isRealDevice);
         Asked (simctl_openUrl url)]
      /\ ending (perform h (setUrl url) s) = ends_as r).
Proof.
  intros Hweb. unfold setUrl. cbn [seq say call_method clear].
  rewrite perform_say, (perform_ask _ _ _ _ Hweb). cbn [seq].
  split; [ | split].
  - intros -> Hset Hnav. cbn [seq call_method clear].
    rewrite (perform_ask _ _ _ _ Hset). cbn [seq].
    rewrite perform_clear, (perform_ask _ _ _ _ Hnav).
    destruct r; split; reflexivity.
  - intros -> Hreal Htruthy Hpost. cbn [seq call_method].
    rewrite (perform_ask _ _ _ _ Hreal). cbn [seq]. rewrite Htruthy.
    cbn [seq call_method]. rewrite (perform_ask _ _ _ _ Hpost).
    destruct r; split; reflexivity.
  - intros -> Hreal Hfalsy Hopen. cbn [seq call_method].
    rewrite (perform_ask _ _ _ _ Hreal). cbn [seq]. rewrite Hfalsy.
    cbn [seq call_method]. rewrite (perform_ask _ _ _ _ Hopen).
    destruct r; split; reflexivity.
Qed.

(** X20.  [active] asks for the context.  In a web context it runs the
    [active_element] atom and hands what the atom gave to the web element
    cache, whose answer it returns; when the atom fails the cache is never
    called.  Out of a web context it returns what the [/element/active]
    request of the proxy answers. *)
Theorem active_routes (web element : value) (r : value + error) (e : error)
    (s : S) :
  replies h (base isWebContext) (inl web) ->
  (Value.truthy web = true ->
   replies h (base (executeAtom "active_element" [])) (inl element) ->
   replies h (cacheWebElements element) r ->
   steps (perform h active s)
   = [Asked (base isWebContext);
      Asked (base (executeAtom "active_element" []));
      Asked (cacheWebElements element)]
   /\ ending (perform h active s) = r)
  /\ (Value.truthy web = true ->
      replies h (base (executeAtom "active_element" [])) (inr e) ->
      steps (perform h active s)
      = [Asked (base isWebContext);
         Asked (base (executeAtom "active_element" []))]
      /\ ending (perform h active s) = inr e)
  /\ (Value.truthy web = false ->
      replies h (base (proxyCommand "/element/active" "GET" None None)) r ->
      steps (perform h active s)
      = [Asked (base isWebContext);
         Asked (base (proxyCommand "/element/active" "GET" None None))]
      /\ ending (perform h active s) = r).
Proof.
  intros Hweb. unfold active. cbn [seq call_method].
  rewrite (perform_ask _ _ _ _ Hweb). cbn [seq].
  split; [ | split].
  - intros -> Hatom Hcache. cbn [seq call_method].
    rewrite (perform_ask _ _ _ _ Hatom). cbn [seq].
    rewrite perform_call_method. cbn [then_ steps ending].
    rewrite (Hcache _). split; reflexivity.
  - intros -> Hatom. cbn [seq call_method].
    rewrite (perform_ask _ _ _ _ Hatom). split; reflexivity.
  - intros -> Hget. cbn [seq call_method].
    rewrite (perform_ask _ _ _ _ Hget).
    destruct r; split; reflexivity.
Qed.

(** X21.  [touchId], [toggleEnrollTouchId] and [removeApp] each make one
    call, to the biometric match, the biometric enrolment and the
    application removal, and return nothing whatever that call answered; a
    failure of the call is thrown on unchanged.  An argument of [touchId]
    or [toggleEnrollTouchId] that is left out stands for [true]. *)
Theorem wrappers_delegate (argument : value) (s : S) :
  perform h (touchId argument) s
  = Report
      [Asked (mobileSendBiometricMatch "touchId"
                (default argument (VBool true)))]
      (ends_as (fst (h (mobileSendBiometricMatch "touchId"
                          (default argument (VBool true))) s)))
      (snd (h (mobileSendBiometricMatch "touchId"
                 (default argument (VBool true))) s))
  /\ perform h (toggleEnrollTouchId argument) s
     = Report
         [Asked (mobileEnrollBiometric (default argument (VBool true)))]
         (ends_as (fst (h (mobileEnrollBiometric
                             (default argument (VBool true))) s)))
         (snd (h (mobileEnrollBiometric (default argument (VBool true))) s))
  /\ perform h (removeApp argument) s
     = Report [Asked (mobileRemoveApp argument)]
         (ends_as (fst (h (mobileRemoveApp argument) s)))
         (snd (h (mobileRemoveApp argument) s))
  /\ default VUndefined (VBool true) = VBool true.
Proof.
  unfold touchId, toggleEnrollTouchId, removeApp.
  cbn [seq call_method]. cbn [perform].
  repeat split;
    match goal with
    | |- context [h ?c s] => destruct (h c s) as [[v | e] s']; reflexivity
    end.
Qed.

End DriverCommands.


Lemma launchApp_outcomes_witness :
  (Driver.steps (Driver.perform (Driver.stub (Driver.Setup false true true true))
            Driver.launchApp O)
   = [Driver.launchDeprecated; Driver.Asked (Driver.base (opts "app"));
      Driver.Asked Driver.start;
      Driver.launchWentWrong (VStr "/apps/Demo.app")]
   /\ Driver.ending (Driver.perform (Driver.stub (Driver.Setup false true true true))
               Driver.launchApp O)
      = inr outage)
  /\ (Driver.steps (Driver.perform (Driver.stub (Driver.Setup false true false false))
               Driver.launchApp O)
      = [Driver.launchDeprecated; Driver.Asked (Driver.base (opts "app"));
         Driver.Asked (Driver.base (opts "bundleId"));
         Driver.Asked Driver.start;
         Driver.launchSucceeded (VStr "com.example.demo")]
      /\ Driver.ending (Driver.perform
                   (Driver.stub (Driver.Setup false true false false))
                   Driver.launchApp O)
         = inl VUndefined).
Proof.
  split.
  - apply (launchApp_outcomes (Driver.stub (Driver.Setup false true true true))
             (VStr "/apps/Demo.app") VNull (inr outage) O).
    + intros s. reflexivity.
    + discriminate.
    + intros s. reflexivity.
  - apply (launchApp_outcomes
             (Driver.stub (Driver.Setup false true false false))
             VUndefined (VStr "com.example.demo") (inl VUndefined) O).
    + intros s. reflexivity.
    + intros _ s. reflexivity.
    + intros s. reflexivity.
Defined.

Lemma closeApp_outcomes_witness :
  Driver.steps (Driver.perform (Driver.stub (Driver.Setup false true true true))
           Driver.closeApp O)
  = [Driver.closeDeprecated; Driver.Asked (Driver.base (opts "app"));
     Driver.Asked Driver.stop;
     Driver.closeWentWrong (VStr "/apps/Demo.app")]
  /\ Driver.ending (Driver.perform (Driver.stub (Driver.Setup false true true true))
              Driver.closeApp O)
     = inr outage.
Proof.
  apply (closeApp_outcomes (Driver.stub (Driver.Setup false true true true))
           (VStr "/apps/Demo.app") VNull (inr outage) O).
  - intros s. reflexivity.
  - discriminate.
  - intros s. reflexivity.
Defined.

Lemma setUrl_routes_witness :
  (Driver.steps (Driver.perform (Driver.stub (Driver.Setup true true true true))
            (Driver.setUrl (VStr "https://appium.io")) O)
   = [Driver.settingUrl (VStr "https://appium.io");
      Driver.Asked (Driver.base isWebContext);
      Driver.Asked (Driver.setCurrentUrl (VStr "https://appium.io"));
      Driver.Cleared "curWebFrames";
      Driver.Asked (Driver.remote_navToUrl (VStr "https://appium.io"))]
   /\ Driver.ending (Driver.perform (Driver.stub (Driver.Setup true true true true))
               (Driver.setUrl (VStr "https://appium.io")) O)
      = inr outage)
  /\ Driver.ending (Driver.perform (Driver.stub (Driver.Setup false true true false))
               (Driver.setUrl (VStr "https://appium.io")) O)
     = inl VUndefined
  /\ Driver.steps (Driver.perform (Driver.stub (Driver.Setup false false true false))
              (Driver.setUrl (VStr "https://appium.io")) O)
     = [Driver.settingUrl (VStr "https://appium.io");
        Driver.Asked (Driver.base isWebContext);
        Driver.Asked (Driver.base isRealDevice);
        Driver.Asked (Driver.simctl_openUrl (VStr "https://appium.io"))].
Proof.
  split; [ | split].
  - apply (proj1 (setUrl_routes (Driver.stub (Driver.Setup true true true true))
                    (VStr "https://appium.io") (VBool true) VNull VNull
                    (inr outage) O (fun s => eq_refl))).
    + reflexivity.
    + intros s. reflexivity.
    + intros s. reflexivity.
  - apply (proj1 (proj2 (setUrl_routes
                           (Driver.stub (Driver.Setup false true true false))
                           (VStr "https://appium.io") (VBool false)
                           (VBool true) VNull (inl VNull) O (fun s => eq_refl)))).
    + reflexivity.
    + intros s. reflexivity.
    + reflexivity.
    + intros s. reflexivity.
  - apply (proj2 (proj2 (setUrl_routes
                           (Driver.stub (Driver.Setup false false true false))
                           (VStr "https://appium.io") (VBool false)
                           (VBool false) VNull (inl VNull) O (fun s => eq_refl)))).
    + reflexivity.
    + intros s. reflexivity.
    + reflexivity.
    + intros s. reflexivity.
Defined.

Lemma active_routes_witness :
  Driver.ending (Driver.perform (Driver.stub (Driver.Setup true true true false))
            Driver.active O)
  = inl VNull
  /\ Driver.steps (Driver.perform (Driver.stub (Driver.Setup false true true false))
              Driver.active O)
     = [Driver.Asked (Driver.base isWebContext);
        Driver.Asked
          (Driver.base (proxyCommand "/element/active" "GET" None None))].
Proof.
  split.
  - apply (proj1 (active_routes (Driver.stub (Driver.Setup true true true false))
                    (VBool true) VNull (inl VNull) outage O
                    (fun s => eq_refl))).
    + reflexivity.
    + intros s. reflexivity.
    + intros s. reflexivity.
  - apply (proj2 (proj2 (active_routes
                           (Driver.stub (Driver.Setup false true true false))
                           (VBool false) VNull (inl VNull) outage O
                           (fun s => eq_refl)))).
    + reflexivity.
    + intros s. reflexivity.
Defined.
